(** * todo.txt-des: descriptions for todo.txt tasks

    A shallow embedding of [des.py], the todo.txt add-on that attaches a
    free-form description to a task.  The task line carries a short tag
    [des:<id>]; the text lives in [<TODO_DIR>/descriptions/<id>.txt].

    Modelling conventions.
    - A Python [str] is a list of Unicode code points ([N]).  Files are text
      files: the locale encoding is UTF-8, file contents are valid UTF-8 and
      strings hold no lone surrogates, so that [bytes.decode] and the encoding
      done by text streams are mutually inverse and are left out.
    - The platform is POSIX: [os.linesep] is a line feed, so text streams
      write line feeds unchanged; a text stream opened for reading with the
      default [newline=None] translates carriage returns (universal
      newlines), [sys.stdin] does not.
    - [fileinput.FileInput(inplace=True, mode="rb")] puts the new task file
      in the place of [sys.stdout].  From Python 3.10 on that stream is opened
      with the write mode that goes with the read mode, so it is binary and
      [print] of a [str] raises [TypeError]; up to Python 3.9 it was a text
      stream.  Both are modelled: the mode of that stream is a parameter of
      the program.
    - The environment is configured: [TODO_FILE] names an existing readable
      and writable file, [TODO_DIR] an existing writable directory. *)

From Stdlib Require Import ZArith NArith List String Ascii Lia DecimalString.
From stdpp Require Import base option list gmap.

Local Open Scope N_scope.

(** ** Python strings *)

Module Py.

Abbreviation str := (list N).

(** ASCII literals. *)
Definition lit (s : string) : str := N_of_ascii <$> list_ascii_of_string s.

Definition LF : N := 10.
Definition CR : N := 13.

(** [str.isspace] on one character: the code points for which
    [Py_UNICODE_ISSPACE] holds. *)
Definition isspace (c : N) : bool :=
  ((9 <=? c) && (c <=? 13)) || ((28 <=? c) && (c <=? 32))
  || (c =? 133) || (c =? 160) || (c =? 5760)
  || ((8192 <=? c) && (c <=? 8202))
  || (c =? 8232) || (c =? 8233) || (c =? 8239) || (c =? 8287)
  || (c =? 12288).

Fixpoint lstrip (s : str) : str :=
  match s with
  | c :: s' => if isspace c then lstrip s' else s
  | [] => []
  end.

Definition rstrip (s : str) : str := reverse (lstrip (reverse s)).

(** [str.strip()] without argument: white space is removed at both ends. *)
Definition strip (s : str) : str := rstrip (lstrip s).

(** Iterating over a stream, or [readlines]: the text is cut after every
    line feed and the line feed stays on its line. *)
Fixpoint readlines (s : str) : list str :=
  match s with
  | [] => []
  | c :: s' =>
      if c =? LF then [c] :: readlines s'
      else match readlines s' with
           | [] => [[c]]
           | l :: ls => (c :: l) :: ls
           end
  end.

(** ["".join(lines)] *)
Definition join (lines : list str) : str := concat lines.

(** What a text stream opened with [open(path, 'r')] delivers: [\r\n] and a
    lone [\r] are both read as [\n]. *)
Fixpoint universal_newlines (s : str) : str :=
  match s with
  | [] => []
  | c :: s' =>
      if c =? CR then
        LF :: match s' with
              | d :: s'' => if d =? LF then universal_newlines s''
                            else universal_newlines s'
              | [] => []
              end
      else c :: universal_newlines s'
  end.

(** [str(n)] for an [int]. *)
Definition str_of_int (n : Z) : str :=
  lit (NilZero.string_of_int (Z.to_int n)).

End Py.

Import Py.

(** ** The tag pattern *)

Module Re.

(** The character class [[a-zA-Z0-9]]. *)
Definition is_alnum (c : N) : bool :=
  ((48 <=? c) && (c <=? 57)) || ((65 <=? c) && (c <=? 90))
  || ((97 <=? c) && (c <=? 122)).

(** The greedy [[a-zA-Z0-9]+] at the head of [s], possibly empty here. *)
Fixpoint alnum_run (s : str) : str :=
  match s with
  | c :: s' => if is_alnum c then c :: alnum_run s' else []
  | [] => []
  end.

(** The literal [p] at the head of [s]; what follows it. *)
Fixpoint literal (p s : str) : option str :=
  match p, s with
  | [], _ => Some s
  | a :: p', c :: s' => if a =? c then literal p' s' else None
  | _ :: _, [] => None
  end.

(** [re.compile(r'des:(?P<des_id>[a-zA-Z0-9]+)')] anchored at the head of
    [s]: the group [des_id] of the match, if there is one. *)
Definition DESCRIPTION_ID_PATTERN (s : str) : option str :=
  match literal (lit "des:") s with
  | Some rest =>
      match alnum_run rest with
      | [] => None
      | des_id => Some des_id
      end
  | None => None
  end.

(** [DESCRIPTION_ID_PATTERN.search(s)]: the leftmost match. *)
Fixpoint search (s : str) : option str :=
  match DESCRIPTION_ID_PATTERN s with
  | Some des_id => Some des_id
  | None => match s with
            | [] => None
            | _ :: s' => search s'
            end
  end.

(** [re.sub(DESCRIPTION_ID_PATTERN.pattern, '', s)]: one scan from the
    left; the characters of a match are dropped and the scan resumes behind
    it.  [skip] counts the characters of the current match that are still to
    be dropped. *)
Fixpoint sub_from (skip : nat) (s : str) : str :=
  match s with
  | [] => []
  | c :: s' =>
      match skip with
      | S k => sub_from k s'
      | O =>
          match DESCRIPTION_ID_PATTERN s with
          | Some des_id => sub_from (3 + length des_id) s'
          | None => c :: sub_from 0 s'
          end
      end
  end.

Definition sub (s : str) : str := sub_from 0 s.

End Re.

(** ** SHA-256 ([hashlib.sha256]) *)

Module Sha256.

Local Open Scope Z_scope.

(** Words are 32-bit integers in [Z]; bytes are integers below 256. *)
Definition mask32 : Z := 0xffffffff.
Definition wrap (x : Z) : Z := Z.land x mask32.
Definition add32 (x y : Z) : Z := wrap (x + y).
Definition rotr (n x : Z) : Z :=
  Z.lor (Z.shiftr x n) (wrap (Z.shiftl x (32 - n))).
Definition xor3 (x y z : Z) : Z := Z.lxor (Z.lxor x y) z.

Definition Ch (x y z : Z) : Z :=
  Z.lxor (Z.land x y) (Z.land (Z.lxor x mask32) z).
Definition Maj (x y z : Z) : Z :=
  xor3 (Z.land x y) (Z.land x z) (Z.land y z).
Definition Sigma0 (x : Z) : Z := xor3 (rotr 2 x) (rotr 13 x) (rotr 22 x).
Definition Sigma1 (x : Z) : Z := xor3 (rotr 6 x) (rotr 11 x) (rotr 25 x).
Definition sigma0 (x : Z) : Z := xor3 (rotr 7 x) (rotr 18 x) (Z.shiftr x 3).
Definition sigma1 (x : Z) : Z := xor3 (rotr 17 x) (rotr 19 x) (Z.shiftr x 10).

(** The constants of the standard are given by their definition: the round
    constants are the first 32 bits of the fractional parts of the cube roots
    of the first 64 primes, the initial chaining value those of the square
    roots of the first 8 primes. *)
Definition is_prime (n : Z) : bool :=
  forallb (λ d, negb (n mod d =? 0)) (seqZ 2 (n - 2)).

Definition primes : list Z := filter (λ n, is_prime n = true) (seqZ 2 310).

(** The integer cube root of [n], found bit by bit below bit [k]. *)
Fixpoint cube_root (k : nat) (n x : Z) : Z :=
  match k with
  | O => x
  | S k' =>
      let y := x + 2 ^ Z.of_nat k' in
      cube_root k' n (if y * y * y <=? n then y else x)
  end.

Definition K : list Z :=
  Eval vm_compute in
    (λ p, wrap (cube_root 36 (p * 2 ^ 96) 0)) <$> primes.

(** The chaining value: eight words. *)
Record state := State {
  h0 : Z; h1 : Z; h2 : Z; h3 : Z; h4 : Z; h5 : Z; h6 : Z; h7 : Z }.

Definition of_words (ws : list Z) : state :=
  State (nth 0 ws 0) (nth 1 ws 0) (nth 2 ws 0) (nth 3 ws 0)
        (nth 4 ws 0) (nth 5 ws 0) (nth 6 ws 0) (nth 7 ws 0).

Definition initial : state :=
  Eval vm_compute in
    of_words ((λ p, wrap (Z.sqrt (p * 2 ^ 64))) <$> take 8 primes).

(** The message schedule, built with the latest word first. *)
Fixpoint extend (n : nat) (rw : list Z) : list Z :=
  match n with
  | O => rw
  | S n' =>
      let w := add32 (add32 (sigma1 (nth 1 rw 0)) (nth 6 rw 0))
                     (add32 (sigma0 (nth 14 rw 0)) (nth 15 rw 0)) in
      extend n' (w :: rw)
  end.

Definition schedule (block : list Z) : list Z :=
  rev (extend 48 (rev block)).

Definition round (s : state) (kw : Z * Z) : state :=
  let t1 := add32 (add32 (add32 (h7 s) (Sigma1 (h4 s)))
                         (add32 (Ch (h4 s) (h5 s) (h6 s)) kw.1)) kw.2 in
  let t2 := add32 (Sigma0 (h0 s)) (Maj (h0 s) (h1 s) (h2 s)) in
  State (add32 t1 t2) (h0 s) (h1 s) (h2 s)
        (add32 (h3 s) t1) (h4 s) (h5 s) (h6 s).

(** One block of sixteen words. *)
Definition compress (s : state) (block : list Z) : state :=
  let r := fold_left round (combine K (schedule block)) s in
  State (add32 (h0 s) (h0 r)) (add32 (h1 s) (h1 r))
        (add32 (h2 s) (h2 r)) (add32 (h3 s) (h3 r))
        (add32 (h4 s) (h4 r)) (add32 (h5 s) (h5 r))
        (add32 (h6 s) (h6 r)) (add32 (h7 s) (h7 r)).

(** Padding: a one bit, zeros up to 56 modulo 64, the bit length on eight
    bytes. *)
Definition be_bytes (n : nat) (x : Z) : list Z :=
  (λ i, Z.land (Z.shiftr x (8 * Z.of_nat i)) 0xff) <$> rev (seq 0 n).

Definition pad (msg : list Z) : list Z :=
  let len := Z.of_nat (length msg) in
  msg ++ [0x80] ++ repeat 0 (Z.to_nat ((55 - len) mod 64))
      ++ be_bytes 8 (8 * len).

Fixpoint words (bs : list Z) : list Z :=
  match bs with
  | a :: b :: c :: d :: bs' =>
      Z.lor (Z.lor (Z.shiftl a 24) (Z.shiftl b 16)) (Z.lor (Z.shiftl c 8) d)
      :: words bs'
  | _ => []
  end.

(** The words are consumed sixteen at a time; [buf] holds the words of the
    current block, latest first, and [room] what it still lacks besides
    the next word. *)
Fixpoint absorb (buf : list Z) (room : nat) (ws : list Z) (s : state)
    : state :=
  match ws with
  | [] => s
  | w :: ws' =>
      match room with
      | O => absorb [] 15 ws' (compress s (rev (w :: buf)))
      | S room' => absorb (w :: buf) room' ws' s
      end
  end.

Definition sha256 (msg : list Z) : state :=
  absorb [] 15 (words (pad msg)) initial.

(** [digest()]: the eight words, big-endian. *)
Definition digest (s : state) : list Z :=
  be_bytes 4 (h0 s) ++ be_bytes 4 (h1 s) ++ be_bytes 4 (h2 s)
  ++ be_bytes 4 (h3 s) ++ be_bytes 4 (h4 s) ++ be_bytes 4 (h5 s)
  ++ be_bytes 4 (h6 s) ++ be_bytes 4 (h7 s).

Definition hexdigit (d : Z) : N :=
  Z.to_N (if d <? 10 then 48 + d else 87 + d).

Definition hex_of_byte (b : Z) : str :=
  [hexdigit (Z.shiftr b 4); hexdigit (Z.land b 0xf)].

(** [hexdigest()]: two lowercase hexadecimal digits per byte. *)
Definition hexdigest (s : state) : str :=
  digest s ≫= hex_of_byte.

End Sha256.

(** [str.encode('utf-8')] *)
Definition encode_utf8_char (c : N) : list Z :=
  let c := Z.of_N c in
  (if c <? 0x80 then [c]
   else if c <? 0x800 then
     [Z.lor 0xc0 (Z.shiftr c 6); Z.lor 0x80 (Z.land c 0x3f)]
   else if c <? 0x10000 then
     [Z.lor 0xe0 (Z.shiftr c 12); Z.lor 0x80 (Z.land (Z.shiftr c 6) 0x3f);
      Z.lor 0x80 (Z.land c 0x3f)]
   else
     [Z.lor 0xf0 (Z.shiftr c 18); Z.lor 0x80 (Z.land (Z.shiftr c 12) 0x3f);
      Z.lor 0x80 (Z.land (Z.shiftr c 6) 0x3f); Z.lor 0x80 (Z.land c 0x3f)])%Z.

Definition encode_utf8 (s : str) : list Z := s ≫= encode_utf8_char.

(** ** The program *)

Module Des.

Record Task := mkTask {
  id : Z;
  original_content : str;
  description_id : option str }.

(** [parse_task]: look for the tag [des:XXXX] in the task's text. *)
Definition parse_task (task_id : Z) (original_content : str) : Task :=
  match Re.search original_content with
  | Some ((_ :: _) as des_id) => mkTask task_id original_content (Some des_id)
  | _ => mkTask task_id original_content None
  end.

(** What the program sees of the outside: the task file and its backup,
    the path [<TODO_DIR>/descriptions], and the standard streams. *)
Inductive entry :=
| RegularFile (content : str)
| OtherEntry.

Inductive node :=
| Missing
| NotDirectory
| Directory (entries : gmap str entry).

Record world := World {
  todo_file : str;
  todo_bak : option str;
  descriptions : node;
  stdin : str;
  stdout : str }.

(** [OSError] stands for its subclasses that opening a file raises, such as
    [IsADirectoryError]; [TypeError] is what writing a [str] to a binary
    stream raises. *)
Inductive exn :=
| ValueError (msg : str)
| OSError
| TypeError.

(** The stream that [FileInput(inplace=True, mode="rb")] puts in the place of
    [sys.stdout]: binary from Python 3.10 on, text before. *)
Inductive output_mode :=
| TextOutput
| BinaryOutput.

Inductive outcome (A : Type) :=
| Returned (a : A)
| Raised (e : exn).
Arguments Returned {A} a.
Arguments Raised {A} e.

(** Computations read and change the world and return or raise. *)
Definition M (A : Type) : Type := world → outcome A * world.

#[global] Instance M_ret : MRet M := λ A a w, (Returned a, w).
#[global] Instance M_bind : MBind M := λ A B f m w,
  match m w with
  | (Returned a, w') => f a w'
  | (Raised e, w') => (Raised e, w')
  end.

Definition raise {A} (e : exn) : M A := λ w, (Raised e, w).
Definition gets {A} (f : world → A) : M A := λ w, (Returned (f w), w).
Definition modify (f : world → world) : M () := λ w, (Returned (), f w).

Definition set_descriptions (d : node) (w : world) : world :=
  World (todo_file w) (todo_bak w) d (stdin w) (stdout w).

(** [print(s)]: the text and a line feed. *)
Definition print (s : str) : M () :=
  modify (λ w, World (todo_file w) (todo_bak w) (descriptions w) (stdin w)
                     (stdout w ++ s ++ [LF])).

(** [enumerate(todo_file)] up to the line wanted. *)
Fixpoint get_task_loop (task_id i : Z) (lines : list str) : option Task :=
  match lines with
  | [] => None
  | line :: lines' =>
      if (i =? task_id - 1)%Z then Some (parse_task task_id line)
      else get_task_loop task_id (i + 1)%Z lines'
  end.

(** [get_task]: the task file is read as text, line by line. *)
Definition get_task (task_id : Z) : M (option Task) :=
  f ← gets (λ w, universal_newlines (todo_file w));
  mret (get_task_loop task_id 0 (readlines f)).

Definition exists_ (d : node) : bool :=
  match d with Missing => false | _ => true end.

Definition is_dir (d : node) : bool :=
  match d with Directory _ => true | _ => false end.

Definition is_file (d : node) (name : str) : bool :=
  match d with
  | Directory entries =>
      match entries !! name with Some (RegularFile _) => true | _ => false end
  | _ => false
  end.

Definition not_found (task_id : Z) : str :=
  lit "Task #" ++ str_of_int task_id ++ lit " not found in todo.txt".

Definition no_description (task_id : Z) : str :=
  lit "No description found for task " ++ str_of_int task_id.

(** [open(description_file, "w", encoding="utf-8")] and [write]. *)
Definition write_description (name content : str) : M () :=
  d ← gets descriptions;
  match d with
  | Directory entries =>
      match entries !! name with
      | Some OtherEntry => raise OSError
      | _ => modify (set_descriptions
                       (Directory (<[name := RegularFile content]> entries)))
      end
  | _ => raise OSError
  end.

(** [open(description_file, 'r')] and [readlines]. *)
Definition read_description (name : str) : M (list str) :=
  d ← gets descriptions;
  match d with
  | Directory entries =>
      match entries !! name with
      | Some (RegularFile content) =>
          mret (readlines (universal_newlines content))
      | _ => raise OSError
      end
  | _ => raise OSError
  end.

(** [sha256(str(getrandbits(256)).encode('utf-8')).hexdigest()[:8]],
    where [r] is the value drawn by [getrandbits]. *)
Definition new_description_id (r : Z) : str :=
  take 8 (Sha256.hexdigest (Sha256.sha256 (encode_utf8 (str_of_int r)))).

Section Environment.

(** The mode of the stream that stands for [sys.stdout] during the rewrite,
    the text of [Path(os.getenv('TODO_DIR')) / 'descriptions'], the editor
    variables, and the effect of [subprocess.call]. *)
Variable inplace_output : output_mode.
Variable description_dir : str.
Variables EDITOR TODO_DESCRIPTION_EDITOR : option str.
Variable call : list str → world → world.

Definition path_of (name : str) : str := description_dir ++ lit "/" ++ name.

Definition not_a_directory : str :=
  description_dir ++ lit " is not a directory".

Definition not_a_file (name : str) : str :=
  path_of name ++ lit " is not a file".

(** The description file is given by its name in the directory. *)
Definition get_description_file (description_id : str) : M str :=
  d ← gets descriptions;
  (if negb (exists_ d) then modify (set_descriptions (Directory ∅))
   else mret ());;
  d ← gets descriptions;
  if negb (is_dir d) then raise (ValueError not_a_directory)
  else mret (description_id ++ lit ".txt").

Definition get_description_content (description_id : str) : M str :=
  description_file ← get_description_file description_id;
  d ← gets descriptions;
  if negb (is_file d description_file)
  then raise (ValueError (not_a_file description_file))
  else lines ← read_description description_file; mret (join lines).

Definition edit_description (task_id : Z) : M () :=
  task ← get_task task_id;
  match task with
  | None => raise (ValueError (not_found task_id))
  | Some task =>
      match description_id task with
      | Some ((_ :: _) as des_id) =>
          description_file ← get_description_file des_id;
          let editor :=
            default (default (lit "vi") TODO_DESCRIPTION_EDITOR) EDITOR in
          modify (call [editor; path_of description_file])
      | _ => raise (ValueError (no_description task_id))
      end
  end.

(** [print(s, end='')] while the new task file stands for [sys.stdout]. *)
Definition print_inplace (s : str) : M () :=
  match inplace_output with
  | TextOutput =>
      modify (λ w, World (todo_file w ++ s) (todo_bak w) (descriptions w)
                         (stdin w) (stdout w))
  | BinaryOutput => raise TypeError
  end.

(** The loop over the lines that [FileInput] yields, numbered from
    [index]. *)
Fixpoint inplace_loop (task_id : Z) (description_id : str) (index : Z)
    (lines : list str) : M () :=
  match lines with
  | [] => mret ()
  | line :: lines' =>
      (if (index =? task_id)%Z then
         let trip_existing_description := Re.sub line in
         print_inplace (strip trip_existing_description ++ lit " des:"
                          ++ description_id ++ [LF])
       else print_inplace line);;
      inplace_loop task_id description_id (index + 1)%Z lines'
  end.

(** [with FileInput(os.getenv('TODO_FILE'), inplace=True, mode="rb",
    backup=".bak")]: the task file becomes the backup, an empty file takes
    its place and receives what is printed; the lines are those of the
    backup, cut at line feeds. *)
Definition rewrite_todo (task_id : Z) (description_id : str) : M () :=
  f ← gets todo_file;
  modify (λ w, World [] (Some f) (descriptions w) (stdin w) (stdout w));;
  inplace_loop task_id description_id 1 (readlines f).

Definition add_description (r : Z) (task_id : Z) (description : str)
    : M () :=
  task ← get_task task_id;
  match task with
  | None => raise (ValueError (not_found task_id))
  | Some _ =>
      d ← gets descriptions;
      if negb (is_dir d) then raise (ValueError not_a_directory)
      else
        let description_id := new_description_id r in
        let description_file := description_id ++ lit ".txt" in
        write_description description_file description;;
        rewrite_todo task_id description_id
  end.

Definition show_description (task_id : Z) : M () :=
  task ← get_task task_id;
  match task with
  | None => raise (ValueError (not_found task_id))
  | Some task =>
      match description_id task with
      | Some ((_ :: _) as des_id) =>
          description_full ← get_description_content des_id;
          print description_full
      | _ => raise (ValueError (no_description task_id))
      end
  end.

(** [optionally_from_stdin]: the argument, or all of standard input. *)
Definition optionally_from_stdin (input : str) : M str :=
  if decide (input = lit "-") then
    s ← gets stdin;
    modify (λ w, World (todo_file w) (todo_bak w) (descriptions w) []
                       (stdout w));;
    mret (strip (join (readlines s)))
  else mret input.

(** The command line, split by [argparse]; [task_id] has gone through
    [int]. *)
Inductive arguments :=
| verb_add (task_id : Z) (description : str)
| verb_show (task_id : Z)
| verb_edit (task_id : Z).

Definition main (r : Z) (args : arguments) : M () :=
  match args with
  | verb_add task_id description =>
      description ← optionally_from_stdin description;
      add_description r task_id description
  | verb_show task_id => show_description task_id
  | verb_edit task_id => edit_description task_id
  end.

(** The script: a [ValueError] is printed and the exit status is 1; any
    other exception is not caught and ends the interpreter with status 1 as
    well. *)
Definition script (r : Z) (args : arguments) (w : world) : Z * world :=
  match main r args w with
  | (Returned _, w') => (0%Z, w')
  | (Raised (ValueError msg), w') => (1%Z, (print msg w').2)
  | (Raised _, w') => (1%Z, w')
  end.

End Environment.

End Des.

Import Des.

Local Close Scope N_scope.

(** Literals stay folded in proofs. *)
Opaque lit.

(** * Vocabulary of the properties *)

(** A line that ends with its only line feed. *)
Definition terminated (l : str) : Prop :=
  ∃ body, l = body ++ [LF] ∧ LF ∉ body.

(** A last line without line feed. *)
Definition unterminated (l : str) : Prop := l ≠ [] ∧ LF ∉ l.

(** Lines as a text is cut into: only the last may lack its line feed. *)
Fixpoint well_cut (ls : list str) : Prop :=
  match ls with
  | [] => True
  | l :: ls' => (terminated l ∧ well_cut ls') ∨ (unterminated l ∧ ls' = [])
  end.

(** White space only. *)
Definition blank (s : str) : Prop := Forall (λ c, isspace c = true) s.

(** No white space at either end. *)
Definition trimmed (s : str) : Prop :=
  (∀ c, head s = Some c → isspace c = false)
  ∧ (∀ c, last s = Some c → isspace c = false).

(** Characters of the class [[a-zA-Z0-9]] only. *)
Definition alnums (s : str) : Prop := Forall (λ c, Re.is_alnum c = true) s.

(** The next character, if there is one, is not of the class. *)
Definition run_ends (s : str) : Prop :=
  ∀ c, head s = Some c → Re.is_alnum c = false.

(** The text contains [des:] immediately followed by at least one
    alphanumeric character. *)
Definition tagged (s : str) : Prop :=
  ∃ pre c post, s = pre ++ lit "des:" ++ c :: post ∧ Re.is_alnum c = true.

(** [des_id] is the whole alphanumeric run behind the first [des:] of [s]
    that is followed by an alphanumeric character; [pre] is what precedes
    that tag and [post] what follows it. *)
Definition first_tag_at (s pre des_id post : str) : Prop :=
  s = pre ++ lit "des:" ++ des_id ++ post
  ∧ des_id ≠ [] ∧ alnums des_id ∧ run_ends post
  ∧ ∀ pre' c post', s = pre' ++ lit "des:" ++ c :: post' →
      Re.is_alnum c = true → length pre ≤ length pre'.

Definition first_tag (s des_id : str) : Prop :=
  ∃ pre post, first_tag_at s pre des_id post.

(** The number of line feeds of a text. *)
Definition count_LF (s : str) : nat := length (filter (λ c, c = LF) s).

(** A position where a line starts: the beginning of the text, or behind a
    line feed. *)
Definition line_start (pre : str) : Prop := pre = [] ∨ last pre = Some LF.

(** The lines of the task file as [get_task] reads them. *)
Definition text_lines (w : world) : list str :=
  readlines (universal_newlines (todo_file w)).

(** A lowercase hexadecimal digit. *)
Definition lower_hex (c : N) : Prop := c ∈ lit "0123456789abcdef".

(** The line that the rewrite puts in the place of [line]. *)
Definition new_line (des_id line : str) : str :=
  strip (Re.sub line) ++ lit " des:" ++ des_id ++ [LF].

(** All that the loop of the rewrite prints for the lines numbered from
    [index]: the text of the new task file when every [print] succeeds. *)
Fixpoint rewrite_loop (task_id : Z) (description_id : str) (index : Z)
    (lines : list str) : str :=
  match lines with
  | [] => []
  | line :: lines' =>
      (if (index =? task_id)%Z then
         strip (Re.sub line) ++ lit " des:" ++ description_id ++ [LF]
       else line)
      ++ rewrite_loop task_id description_id (index + 1)%Z lines'
  end.

(** A line feed is the last character or does not occur. *)
Definition LF_last_only (l : str) : Prop := ∀ p q, l = p ++ LF :: q → q = [].

(** A line of text with its line feed, and sample surroundings. *)
Definition ln (s : string) : str := lit s ++ [LF].

Definition sample_dir : str := lit "/home/user/todo/descriptions".

Definition sample_world (todo : str) (d : node) (input : str) : world :=
  World todo None d input [].

(** Every carriage return is directly followed by a line feed: the text
    has Unix or Windows line ends. *)
Definition CR_before_LF (s : str) : Prop :=
  ∀ p q, s = p ++ CR :: q → ∃ q', q = LF :: q'.

(** * Properties *)

(** Conjuncts are computed from left to right, so that a world that the
    first one yields is known to the next. *)
Ltac compute_each := repeat (split; [by vm_compute|]); by vm_compute.

(** ** The primitives at sample inputs *)

Example readlines_sample :
  readlines (lit "a" ++ [CR] ++ lit "b" ++ [CR; LF] ++ ln "c" ++ ln "" ++ lit "d")
  = [lit "a" ++ [CR] ++ lit "b" ++ [CR; LF]; ln "c"; ln ""; lit "d"].
Proof. by vm_compute. Qed.

Example universal_newlines_sample :
  readlines (universal_newlines
               (lit "a" ++ [CR] ++ lit "b" ++ [CR; LF] ++ ln "c" ++ ln ""
                  ++ lit "d"))
  = [ln "a"; ln "b"; ln "c"; ln ""; lit "d"].
Proof. by vm_compute. Qed.

Example strip_sample :
  strip ([28; 32] ++ lit "a b" ++ [32; 133; 10; 8232])%N = lit "a b".
Proof. by vm_compute. Qed.

Example search_sample :
  Re.search (lit "buy milk des:ab12_x des:cd") = Some (lit "ab12")
  ∧ Re.search (lit "des: x des:") = None
  ∧ Re.search (lit "des:des:abc") = Some (lit "des").
Proof. compute_each. Qed.

Example sub_sample :
  Re.sub (lit "desdes:a:abc des:9 z") = lit "des:abc  z"
  ∧ Re.sub (lit "a des:AB_c") = lit "a _c"
  ∧ Re.sub (lit "des:des:abc") = lit ":abc".
Proof. compute_each. Qed.

Example str_of_int_sample :
  str_of_int (-12) = lit "-12" ∧ str_of_int 0 = lit "0".
Proof. compute_each. Qed.

(** ** Lines of a text *)

Section Lines.

Lemma join_readlines (s : str) : join (readlines s) = s.
Proof.
  unfold join. induction s as [|c s IH]; [done|]. simpl.
  destruct (N.eqb_spec c LF) as [->|Hc]; simpl.
  - by rewrite IH.
  - destruct (readlines s) as [|l ls]; simpl in *; by subst.
Qed.

Lemma readlines_terminated (body s : str) :
  LF ∉ body → readlines (body ++ LF :: s) = (body ++ [LF]) :: readlines s.
Proof.
  induction body as [|c body IH]; intros Hb; [done|].
  apply not_elem_of_cons in Hb as [Hc Hb]. simpl.
  destruct (N.eqb_spec c LF) as [->|_]; [done|]. by rewrite IH.
Qed.

Lemma readlines_unterminated (l : str) : unterminated l → readlines l = [l].
Proof.
  intros [Hne Hl]. induction l as [|c l IH]; [done|].
  apply not_elem_of_cons in Hl as [Hc Hl]. simpl.
  destruct (N.eqb_spec c LF) as [->|_]; [done|].
  destruct l as [|d l]; [done|]. by rewrite IH.
Qed.

Lemma readlines_well_cut (s : str) : well_cut (readlines s).
Proof.
  induction s as [|c s IH]; [done|]. simpl.
  destruct (N.eqb_spec c LF) as [->|Hc].
  - left. split; [by exists []; split; [|apply not_elem_of_nil]|done].
  - destruct (readlines s) as [|l ls]; simpl in *.
    + right. split; [|done]. split; [done|].
      by apply not_elem_of_cons; split; [|apply not_elem_of_nil].
    + destruct IH as [[(body & -> & Hb) Hls]|[[Hne Hl] ->]].
      * left. split; [|done]. exists (c :: body). split; [done|].
        by apply not_elem_of_cons.
      * right. split; [|done]. split; [done|]. by apply not_elem_of_cons.
Qed.

Lemma readlines_join (ls : list str) : well_cut ls → readlines (join ls) = ls.
Proof.
  unfold join. induction ls as [|l ls IH]; [done|]. simpl.
  intros [[(body & -> & Hb) Hls]|[Hl ->]].
  - rewrite <- app_assoc. simpl. rewrite readlines_terminated by done.
    by rewrite IH.
  - simpl. rewrite app_nil_r. by apply readlines_unterminated.
Qed.

Lemma readlines_nil (s : str) : readlines s = [] → s = [].
Proof. intros Hs. by rewrite <- (join_readlines s), Hs. Qed.

Lemma line_start_cons (c : N) (pre : str) :
  line_start (c :: pre) → (c = LF ∧ pre = []) ∨ (pre ≠ [] ∧ line_start pre).
Proof.
  intros [?|Hl]; [done|]. destruct pre as [|d pre].
  - left. by injection Hl.
  - right. split; [done|]. right. by rewrite last_cons_cons in Hl.
Qed.

(** Cutting a text at a line start cuts its list of lines. *)
Lemma readlines_app (pre s : str) :
  line_start pre → readlines (pre ++ s) = readlines pre ++ readlines s.
Proof.
  induction pre as [|c pre IH]; [done|].
  intros [[-> ->]|[Hne Hpre]]%line_start_cons; [done|].
  simpl. rewrite IH by done. destruct (N.eqb_spec c LF); [done|].
  destruct (readlines pre) as [|l ls] eqn:Hr; [|done].
  by apply readlines_nil in Hr.
Qed.

Lemma length_readlines (pre : str) :
  line_start pre → length (readlines pre) = count_LF pre.
Proof.
  unfold count_LF. induction pre as [|c pre IH]; [done|].
  intros [[-> ->]|[Hne Hpre]]%line_start_cons; [done|].
  rewrite filter_cons. simpl. destruct (N.eqb_spec c LF) as [->|Hc].
  - rewrite decide_True by done. simpl. by rewrite IH.
  - rewrite decide_False by done. rewrite <- IH by done.
    destruct (readlines pre) as [|l ls] eqn:Hr; [|done].
    by apply readlines_nil in Hr.
Qed.

(** The line that starts behind [n] line feeds is the line number [n],
    counted from zero. *)
Lemma readlines_lookup (pre line post : str) :
  line_start pre →
  terminated line ∨ (unterminated line ∧ post = []) →
  readlines (pre ++ line ++ post) !! count_LF pre = Some line.
Proof.
  intros Hpre Hline. rewrite readlines_app by done.
  rewrite <- length_readlines by done.
  rewrite lookup_app_r, Nat.sub_diag by done.
  destruct Hline as [(body & -> & Hb)|[Hl ->]].
  - rewrite <- app_assoc. simpl. by rewrite readlines_terminated.
  - rewrite app_nil_r. by rewrite readlines_unterminated.
Qed.

End Lines.

(** ** Stripping *)

Section Strip.

Lemma lstrip_spec (s : str) :
  ∃ ws, s = ws ++ lstrip s ∧ blank ws
        ∧ ∀ c, head (lstrip s) = Some c → isspace c = false.
Proof.
  induction s as [|c s (ws & Hs & Hws & Hh)]; simpl.
  - exists []. by repeat split; [constructor|].
  - destruct (isspace c) eqn:Hc.
    + exists (c :: ws). repeat split; [by rewrite Hs at 1|by constructor|done].
    + exists []. repeat split; [constructor|]. simpl. congruence.
Qed.

Lemma rstrip_spec (s : str) :
  ∃ ws, s = rstrip s ++ ws ∧ blank ws
        ∧ ∀ c, last (rstrip s) = Some c → isspace c = false.
Proof.
  unfold rstrip. destruct (lstrip_spec (reverse s)) as (ws & Hs & Hws & Hh).
  exists (reverse ws). repeat split.
  - rewrite <- reverse_app, <- Hs. by rewrite reverse_involutive.
  - by apply Forall_reverse.
  - intros c. rewrite last_reverse. apply Hh.
Qed.

(** [strip] takes white space, and all of it, from both ends. *)
Lemma strip_spec (s : str) :
  ∃ l t, s = l ++ strip s ++ t ∧ blank l ∧ blank t ∧ trimmed (strip s).
Proof.
  unfold strip.
  destruct (lstrip_spec s) as (l & Hs & Hl & Hh).
  destruct (rstrip_spec (lstrip s)) as (t & Ht & Hbt & Hlast).
  exists l, t. repeat split; [by rewrite <- Ht|done|done| |done].
  intros c Hc. apply Hh. rewrite Ht, head_app, Hc. done.
Qed.

Lemma strip_sublist (s : str) : strip s `sublist_of` s.
Proof.
  destruct (strip_spec s) as (l & t & Hs & _). rewrite Hs at 2.
  apply sublist_inserts_l, sublist_inserts_r. done.
Qed.

(** A line's only line feed, at its end, goes with the white space. *)
Lemma strip_no_LF (x : str) :
  (∀ p q, x = p ++ LF :: q → q = []) → LF ∉ strip x.
Proof.
  intros Hx Hin.
  destruct (strip_spec x) as (l & t & Hs & _ & _ & _ & Hlast).
  apply list_elem_of_split in Hin as (m1 & m2 & Hm).
  rewrite Hm in Hs, Hlast.
  specialize (Hx (l ++ m1) (m2 ++ t)).
  rewrite Hs, <- !app_assoc in Hx. simpl in Hx.
  specialize (Hx eq_refl). apply app_eq_nil in Hx as [-> ->].
  specialize (Hlast LF). rewrite last_snoc in Hlast. by specialize (Hlast eq_refl).
Qed.

End Strip.

(** ** The tag pattern *)

Section Pattern.

Import Re.

Lemma cons_app_inv (c c' : N) (x y z : str) :
  c :: x = (c' :: y) ++ z → c = c' ∧ x = y ++ z.
Proof. by intros [= -> ->]. Qed.

Lemma literal_Some (p s r : str) : literal p s = Some r ↔ s = p ++ r.
Proof.
  revert s. induction p as [|a p IH]; intros s; simpl.
  - split; congruence.
  - destruct s as [|c s]; [split; [done|discriminate]|].
    destruct (N.eqb_spec a c) as [->|Hac].
    + rewrite IH. split; congruence.
    + split; [done|]. intros [= ? _]. done.
Qed.

Lemma alnum_run_spec (s : str) :
  ∃ rest, s = alnum_run s ++ rest ∧ alnums (alnum_run s) ∧ run_ends rest.
Proof.
  induction s as [|c s (rest & Hs & Hr & He)]; simpl.
  - exists []. by repeat split; [constructor|].
  - destruct (is_alnum c) eqn:Hc.
    + exists rest. repeat split; [by rewrite Hs at 1|by constructor|done].
    + exists (c :: s). repeat split; [constructor|].
      intros d [= <-]. done.
Qed.

Lemma alnum_run_app (i rest : str) :
  alnums i → run_ends rest → alnum_run (i ++ rest) = i.
Proof.
  intros Hi He. induction Hi as [|c i Hc _ IH]; simpl.
  - destruct rest as [|d rest]; [done|]. simpl. by rewrite (He d).
  - by rewrite Hc, IH.
Qed.

Lemma alnum_run_nil (s : str) : alnum_run s = [] ↔ run_ends s.
Proof.
  destruct s as [|c s]; simpl.
  - split; [by intros _ c|done].
  - destruct (is_alnum c) eqn:Hc.
    + split; [done|]. intros He. specialize (He c eq_refl). congruence.
    + split; [|done]. intros _ d [= <-]. done.
Qed.

(** The anchored pattern: [des:], then the whole alphanumeric run, which is
    not empty. *)
Lemma pattern_Some (s des_id : str) :
  DESCRIPTION_ID_PATTERN s = Some des_id ↔
  ∃ post, s = lit "des:" ++ des_id ++ post
          ∧ des_id ≠ [] ∧ alnums des_id ∧ run_ends post.
Proof.
  unfold DESCRIPTION_ID_PATTERN. split.
  - destruct (literal (lit "des:") s) as [rest|] eqn:Hl; [|done].
    apply literal_Some in Hl.
    destruct (alnum_run_spec rest) as (post & Hrest & Hal & He).
    destruct (alnum_run rest) as [|c i] eqn:Hrun; [done|].
    intros [= <-]. exists post. by rewrite <- Hrest.
  - intros (post & -> & Hne & Hal & He).
    assert (literal (lit "des:") (lit "des:" ++ des_id ++ post)
            = Some (des_id ++ post)) as -> by by apply literal_Some.
    rewrite alnum_run_app by done. by destruct des_id.
Qed.

Lemma pattern_is_Some (s : str) :
  is_Some (DESCRIPTION_ID_PATTERN s) ↔
  ∃ c post, s = lit "des:" ++ c :: post ∧ is_alnum c = true.
Proof.
  split.
  - intros [i Hi]. apply pattern_Some in Hi as (post & -> & Hne & Hal & _).
    destruct Hal as [|c i Hc _]; [done|]. by exists c, (i ++ post).
  - intros (c & post & -> & Hc). unfold DESCRIPTION_ID_PATTERN.
    assert (literal (lit "des:") (lit "des:" ++ c :: post)
            = Some (c :: post)) as -> by by apply literal_Some.
    simpl. rewrite Hc. by eexists.
Qed.

Lemma search_unfold (s : str) :
  search s = match DESCRIPTION_ID_PATTERN s with
             | Some des_id => Some des_id
             | None => match s with [] => None | _ :: s' => search s' end
             end.
Proof. by destruct s. Qed.

(** [search] finds the first tag, and only that. *)
Lemma search_first_tag (s des_id : str) :
  search s = Some des_id ↔ first_tag s des_id.
Proof.
  revert des_id.
  induction s as [|c s IH]; intros des_id; rewrite search_unfold.
  - change (DESCRIPTION_ID_PATTERN []) with (@None str).
    split; [done|]. intros (pre & post & Hs & _).
    destruct pre; discriminate Hs.
  - destruct (DESCRIPTION_ID_PATTERN (c :: s)) as [i|] eqn:Hp.
    + pose proof Hp as (post & Hs & Hne & Hal & He)%pattern_Some. split.
      * intros [= <-]. exists [], post. repeat split; try done.
        intros; simpl; lia.
      * intros (pre & post' & Hs' & Hne' & Hal' & He' & Hmin).
        destruct Hal as [|d i Hd Hal]; [done|].
        specialize (Hmin [] d (i ++ post) Hs Hd). destruct pre; [|simpl in Hmin; lia].
        rewrite app_nil_l in Hs'. rewrite Hs' in Hp.
        assert (DESCRIPTION_ID_PATTERN (lit "des:" ++ des_id ++ post')
                = Some des_id) as Hp' by (apply pattern_Some; eauto).
        congruence.
    + assert (∀ d post', c :: s = lit "des:" ++ d :: post' →
                is_alnum d = true → False) as Hnot.
      { intros d post' Hs Hd.
        assert (is_Some (DESCRIPTION_ID_PATTERN (c :: s))) as [? ?]
          by (apply pattern_is_Some; eauto).
        congruence. }
      rewrite IH. split.
      * intros (pre & post & -> & Hne & Hal & He & Hmin).
        exists (c :: pre), post. repeat split; try done.
        intros [|c' pre'] d post' Hs Hd; [by destruct (Hnot d post')|].
        apply cons_app_inv in Hs as [<- Hs]. simpl. apply le_n_S. by eapply Hmin.
      * intros (pre & post & Hs & Hne & Hal & He & Hmin).
        destruct pre as [|c' pre].
        { destruct Hal as [|d i Hd _]; [done|].
          by destruct (Hnot d (i ++ post)). }
        apply cons_app_inv in Hs as [<- Hs]. exists pre, post. repeat split; try done.
        intros pre' d post' Hs' Hd.
        specialize (Hmin (c :: pre') d post'). simpl in Hmin.
        rewrite Hs' in Hmin. specialize (Hmin eq_refl Hd). lia.
Qed.

Lemma search_tagged (s : str) : is_Some (search s) ↔ tagged s.
Proof.
  split.
  - intros [i (pre & post & -> & Hne & Hal & _)%search_first_tag].
    destruct Hal as [|c i Hc _]; [done|]. by exists pre, c, (i ++ post).
  - induction s as [|c s IH]; intros (pre & d & post & Hs & Hd).
    { destruct pre; discriminate Hs. }
    rewrite search_unfold.
    destruct (DESCRIPTION_ID_PATTERN (c :: s)) as [i|] eqn:Hp; [by eexists|].
    destruct pre as [|c' pre].
    + assert (is_Some (DESCRIPTION_ID_PATTERN (c :: s))) as [? ?]
        by (apply pattern_is_Some; eauto).
      congruence.
    + apply cons_app_inv in Hs as [<- Hs]. apply IH. by exists pre, d, post.
Qed.

Lemma search_None (s : str) : search s = None ↔ ¬ tagged s.
Proof. rewrite <- search_tagged, eq_None_not_Some. done. Qed.

(** *** Substitution *)

Lemma sub_from_sublist (k : nat) (s : str) : sub_from k s `sublist_of` s.
Proof.
  revert k. induction s as [|c s IH]; intros k; simpl; [done|].
  destruct k as [|k]; [|by apply sublist_cons].
  destruct (DESCRIPTION_ID_PATTERN (c :: s));
    [by apply sublist_cons|by apply sublist_skip].
Qed.

Lemma sub_sublist (s : str) : sub s `sublist_of` s.
Proof. apply sub_from_sublist. Qed.

Lemma sub_from_drop (k : nat) (s : str) : sub_from k s = sub (drop k s).
Proof.
  revert k. induction s as [|c s IH]; intros [|k]; try done.
  simpl. apply IH.
Qed.

(** What the scan does at the head of the text: behind a match it resumes
    after the match, otherwise it keeps the character. *)
Lemma sub_unfold (s : str) :
  sub s = match DESCRIPTION_ID_PATTERN s with
          | Some des_id => sub (drop (4 + length des_id) s)
          | None => match s with [] => [] | c :: s' => c :: sub s' end
          end.
Proof.
  destruct s as [|c s]; [done|]. unfold sub at 1. simpl.
  destruct (DESCRIPTION_ID_PATTERN (c :: s)); [|done]. apply sub_from_drop.
Qed.

Lemma first_tag_at_cons (c : N) (s pre des_id post : str) :
  first_tag_at (c :: s) (c :: pre) des_id post → first_tag_at s pre des_id post.
Proof.
  intros (Hs & Hne & Hal & He & Hmin).
  apply cons_app_inv in Hs as [_ Hs]. repeat split; try done.
  intros pre' d post' Hs' Hd. specialize (Hmin (c :: pre') d post').
  simpl in Hmin. rewrite Hs' in Hmin. specialize (Hmin eq_refl Hd). lia.
Qed.

Lemma first_tag_at_pattern (c : N) (s pre des_id post : str) :
  first_tag_at s (c :: pre) des_id post → DESCRIPTION_ID_PATTERN s = None.
Proof.
  intros (Hs & Hne & Hal & He & Hmin). apply eq_None_not_Some.
  intros (d & post' & Hs' & Hd)%pattern_is_Some.
  specialize (Hmin [] d post' Hs' Hd). simpl in Hmin. lia.
Qed.

(** The first tag goes, all of it, and the scan goes on behind it. *)
Lemma sub_first_tag (s pre des_id post : str) :
  first_tag_at s pre des_id post → sub s = pre ++ sub post.
Proof.
  revert s. induction pre as [|c pre IH]; intros s Hf; rewrite sub_unfold.
  - destruct Hf as (Hs & Hne & Hal & He & _). rewrite app_nil_l in Hs.
    assert (DESCRIPTION_ID_PATTERN s = Some des_id) as ->
      by (apply pattern_Some; eauto).
    rewrite Hs, app_assoc. by rewrite drop_app_length' by by rewrite length_app.
  - rewrite (first_tag_at_pattern _ _ _ _ _ Hf).
    destruct s as [|c' s]; [by destruct Hf as (Hs & _)|].
    assert (c' = c) as ->
      by (destruct Hf as (Hs & _); by apply cons_app_inv in Hs as [-> _]).
    simpl. f_equal. apply IH. by eapply first_tag_at_cons.
Qed.

(** A text without tag stays as it is. *)
Lemma sub_untagged (s : str) : ¬ tagged s → sub s = s.
Proof.
  induction s as [|c s IH]; intros Hs; [done|]. rewrite sub_unfold.
  destruct (DESCRIPTION_ID_PATTERN (c :: s)) as [i|] eqn:Hp.
  - destruct Hs. apply search_tagged. rewrite search_unfold, Hp. by eexists.
  - f_equal. apply IH. intros (pre & d & post & -> & Hd).
    apply Hs. by exists (c :: pre), d, post.
Qed.

(** *** A character that no tag contains *)

Lemma literal_app_stop (p x : str) (c : N) (rest : str) :
  c ∉ p → literal p (x ++ c :: rest) = (.++ c :: rest) <$> literal p x.
Proof.
  revert x. induction p as [|a p IH]; intros x Hc; [done|].
  apply not_elem_of_cons in Hc as [Hca Hc]. destruct x as [|d x]; simpl.
  - by destruct (N.eqb_spec a c) as [->|_].
  - destruct (a =? d)%N; [by apply IH|done].
Qed.

Lemma alnum_run_app_stop (x : str) (c : N) (rest : str) :
  is_alnum c = false → alnum_run (x ++ c :: rest) = alnum_run x.
Proof.
  intros Hc. induction x as [|d x IH]; simpl; [by rewrite Hc|].
  by rewrite IH.
Qed.

Lemma pattern_app_stop (x : str) (c : N) (rest : str) :
  is_alnum c = false → c ∉ lit "des:" →
  DESCRIPTION_ID_PATTERN (x ++ c :: rest) = DESCRIPTION_ID_PATTERN x.
Proof.
  intros Hc Hin. unfold DESCRIPTION_ID_PATTERN.
  rewrite literal_app_stop by done.
  destruct (literal (lit "des:") x) as [r|]; [|done]. simpl.
  by rewrite alnum_run_app_stop.
Qed.

(** Such a character separates the tags before it from the tags behind. *)
Lemma search_app_stop (x : str) (c : N) (rest : str) :
  is_alnum c = false → c ∉ lit "des:" →
  search (x ++ c :: rest) = match search x with
                            | Some des_id => Some des_id
                            | None => search (c :: rest)
                            end.
Proof.
  intros Hc Hin. induction x as [|d x IH]; [done|].
  rewrite (search_unfold (d :: x)), <- app_comm_cons, search_unfold.
  rewrite app_comm_cons, pattern_app_stop by done.
  by destruct (DESCRIPTION_ID_PATTERN (d :: x)).
Qed.

Lemma isspace_stop (c : N) :
  isspace c = true → is_alnum c = false ∧ c ∉ lit "des:".
Proof.
  intros Hc. split.
  - unfold isspace, is_alnum in *.
    repeat match goal with
           | H : _ || _ = true |- _ => apply orb_true_iff in H as [H|H]
           | H : _ && _ = true |- _ => apply andb_true_iff in H as [? ?]
           | H : (_ <=? _)%N = true |- _ => apply N.leb_le in H
           | H : (_ =? _)%N = true |- _ => apply N.eqb_eq in H
           end;
    repeat match goal with
           | |- _ || _ = false => apply orb_false_iff; split
           | |- _ && _ = false => apply andb_false_iff
           end;
    rewrite ?N.leb_gt; unfold LF in *; lia.
  - intros Hin. change (lit "des:") with [100; 101; 115; 58]%N in Hin.
    rewrite !elem_of_cons, elem_of_nil in Hin.
    destruct Hin as [->|[->|[->|[->|[]]]]]; vm_compute in Hc; discriminate Hc.
Qed.

End Pattern.

(** ** The tag parser *)

Lemma parse_task_search (task_id : Z) (line : str) :
  parse_task task_id line = mkTask task_id line (Re.search line).
Proof.
  unfold parse_task. destruct (Re.search line) as [[|c i]|] eqn:Hs; try done.
  exfalso.
  apply search_first_tag in Hs as (pre & post & _ & Hne & _). by destruct Hne.
Qed.

(** C4. The tag parser returns an identifier exactly for the lines that
    contain [des:] immediately followed by an alphanumeric character; the
    identifier is then the whole alphanumeric run behind the first such
    [des:]; a line in which every [des:] is followed by no alphanumeric
    character has no identifier. *)
Theorem parse_task_description_id (task_id : Z) (line : str) :
  id (parse_task task_id line) = task_id
  ∧ original_content (parse_task task_id line) = line
  ∧ (is_Some (description_id (parse_task task_id line)) ↔ tagged line)
  ∧ (∀ des_id, description_id (parse_task task_id line) = Some des_id
               ↔ first_tag line des_id)
  ∧ ((∀ pre post, line = pre ++ lit "des:" ++ post → run_ends post)
     → description_id (parse_task task_id line) = None).
Proof.
  rewrite parse_task_search. simpl. repeat split.
  - apply search_tagged.
  - apply search_tagged.
  - apply search_first_tag.
  - apply search_first_tag.
  - intros Hno. apply search_None. intros (pre & c & post & Hl & Hc).
    specialize (Hno pre (c :: post) Hl c eq_refl). congruence.
Qed.

(** ** The task locator *)

Section Locator.

Variable inplace_output : output_mode.
Variable description_dir : str.
Variables EDITOR TODO_DESCRIPTION_EDITOR : option str.
Variable call : list str → world → world.

Local Abbreviation add_description :=
  (add_description inplace_output description_dir).
Local Abbreviation show_description :=
  (show_description description_dir).
Local Abbreviation edit_description :=
  (edit_description description_dir EDITOR TODO_DESCRIPTION_EDITOR call).
Local Abbreviation script :=
  (script inplace_output description_dir EDITOR TODO_DESCRIPTION_EDITOR call).

Lemma get_task_loop_lookup (task_id i : Z) (lines : list str) :
  get_task_loop task_id i lines =
  if decide (i ≤ task_id - 1)%Z
  then parse_task task_id <$> lines !! Z.to_nat (task_id - 1 - i)
  else None.
Proof.
  revert i. induction lines as [|line lines IH]; intros i; simpl.
  - by case_decide.
  - destruct (Z.eqb_spec i (task_id - 1)) as [->|Hne].
    + rewrite decide_True by lia. by rewrite Z.sub_diag.
    + rewrite IH. repeat case_decide; try lia; [|done].
      replace (Z.to_nat (task_id - 1 - i))
        with (S (Z.to_nat (task_id - 1 - (i + 1)))) by lia.
      done.
Qed.

Lemma get_task_lookup (w : world) (task_id : Z) :
  get_task task_id w =
  (Returned (if decide (1 ≤ task_id)%Z
             then parse_task task_id <$> text_lines w !! Z.to_nat (task_id - 1)
             else None), w).
Proof.
  unfold get_task, mbind, M_bind, gets, mret, M_ret. simpl.
  rewrite get_task_loop_lookup. unfold text_lines.
  repeat case_decide; try lia; [|done]. by rewrite Z.sub_0_r.
Qed.

Lemma get_task_None (w : world) (task_id : Z) :
  get_task task_id w = (Returned None, w) ↔
  (task_id ≤ 0 ∨ Z.of_nat (length (text_lines w)) < task_id)%Z.
Proof.
  rewrite get_task_lookup. case_decide as Hid.
  - destruct (text_lines w !! Z.to_nat (task_id - 1)) as [line|] eqn:Hl; simpl.
    + apply lookup_lt_Some in Hl. split; [done|lia].
    + apply lookup_ge_None in Hl. split; [lia|done].
  - split; [lia|done].
Qed.

(** Without a task, the three commands raise the same error. *)
Lemma commands_not_found (w : world) (r task_id : Z) (description : str) :
  get_task task_id w = (Returned None, w) →
  add_description r task_id description w
    = (Raised (ValueError (not_found task_id)), w)
  ∧ show_description task_id w = (Raised (ValueError (not_found task_id)), w)
  ∧ edit_description task_id w = (Raised (ValueError (not_found task_id)), w).
Proof.
  intros Hg.
  unfold Des.add_description, Des.show_description, Des.edit_description.
  unfold mbind, M_bind. rewrite Hg. done.
Qed.

(** C6. For an index from 1 on, the locator returns the task of the line
    the index names, and returns nothing exactly when the index exceeds the
    number of lines; [show] then fails with the not-found message and the
    script ends with status 1. *)
Theorem get_task_not_found (w : world) (r task_id : Z) :
  (1 ≤ task_id)%Z →
  (∀ line, text_lines w !! Z.to_nat (task_id - 1) = Some line →
     get_task task_id w = (Returned (Some (parse_task task_id line)), w))
  ∧ ((task_id ≤ Z.of_nat (length (text_lines w)))%Z →
       ∃ t, get_task task_id w = (Returned (Some t), w))
  ∧ (get_task task_id w = (Returned None, w)
     ↔ (Z.of_nat (length (text_lines w)) < task_id)%Z)
  ∧ ((Z.of_nat (length (text_lines w)) < task_id)%Z →
       show_description task_id w
         = (Raised (ValueError (not_found task_id)), w)
       ∧ script r (verb_show task_id) w
         = (1%Z, World (todo_file w) (todo_bak w) (descriptions w) (stdin w)
                       (stdout w ++ not_found task_id ++ [LF]))).
Proof.
  intros Hid. repeat split.
  - intros line Hl. rewrite get_task_lookup, decide_True, Hl; done.
  - intros Hle. rewrite get_task_lookup, decide_True by done.
    destruct (lookup_lt_is_Some_2 (text_lines w) (Z.to_nat (task_id - 1)))
      as [line ->]; [lia|]. by eexists.
  - intros Hg. apply get_task_None in Hg. lia.
  - intros Hlt. apply get_task_None. by right.
  - apply (commands_not_found w r task_id []), get_task_None. by right.
  - unfold Des.script, main.
    destruct (commands_not_found w r task_id []) as (_ & -> & _); [|done].
    apply get_task_None. by right.
Qed.

(** C10. For an index of zero or less the lookup returns nothing, as for an
    index past the end of the file, and [add], [show] and [edit] all fail
    with the not-found message. *)
Theorem non_positive_task_id_not_found
    (w : world) (r task_id : Z) (description : str) :
  (task_id ≤ 0)%Z →
  get_task task_id w = (Returned None, w)
  ∧ add_description r task_id description w
    = (Raised (ValueError (not_found task_id)), w)
  ∧ show_description task_id w = (Raised (ValueError (not_found task_id)), w)
  ∧ edit_description task_id w = (Raised (ValueError (not_found task_id)), w).
Proof.
  intros Hid.
  assert (get_task task_id w = (Returned None, w)) as Hg
    by (apply get_task_None; by left).
  split; [done|]. by apply commands_not_found.
Qed.

(** C5, as the code has it.  The task found for the index of an existing
    line carries the full text of that line as the text stream delivers it:
    with its tag and with the line feed that ends it (the last line of the
    file may have none). *)
Theorem get_task_original_content
    (w : world) (task_id : Z) (pre line post : str) :
  universal_newlines (todo_file w) = pre ++ line ++ post →
  line_start pre →
  task_id = (Z.of_nat (count_LF pre) + 1)%Z →
  terminated line ∨ (unterminated line ∧ post = []) →
  ∃ t, get_task task_id w = (Returned (Some t), w)
       ∧ id t = task_id
       ∧ original_content t = line
       ∧ description_id t = Re.search line.
Proof.
  intros Hw Hpre -> Hline. exists (parse_task (Z.of_nat (count_LF pre) + 1) line).
  rewrite parse_task_search. repeat split.
  rewrite get_task_lookup, decide_True by lia.
  replace (Z.to_nat (Z.of_nat (count_LF pre) + 1 - 1)) with (count_LF pre) by lia.
  unfold text_lines. rewrite Hw, readlines_lookup by done.
  simpl. by rewrite parse_task_search.
Qed.

End Locator.

(** ** The description identifier *)

Section Identifier.

Import Sha256.

(** The constants computed from the primes are those of the standard. *)
Example sha256_constants :
  length K = 64 ∧ K !! 0 = Some 0x428a2f98%Z ∧ K !! 63 = Some 0xc67178f2%Z
  ∧ h0 initial = 0x6a09e667%Z ∧ h7 initial = 0x5be0cd19%Z.
Proof. compute_each. Qed.

(** Test vectors of the hash: messages of one block and one of two. *)
Example sha256_abc :
  hexdigest (sha256 (encode_utf8 (lit "abc")))
  = lit "ba7816bf8f01cfea414140de5dae2223b00361a396177a9cb410ff61f20015ad".
Proof. by vm_compute. Qed.

Example sha256_zero :
  hexdigest (sha256 (encode_utf8 (str_of_int 0)))
  = lit "5feceb66ffc86f38d952786c6d696c79c2dbc239dd4e91b46729d73a27fb57e9".
Proof. by vm_compute. Qed.

Example sha256_largest_draw :
  hexdigest (sha256 (encode_utf8 (str_of_int (2 ^ 256 - 1))))
  = lit "f071ee960e2f5f0391c4fc4d5877f62a9c74ade164e8981c8c830f4fe2a16ee0".
Proof. by vm_compute. Qed.

Lemma hexdigit_lower_hex (d : Z) : (0 ≤ d < 16)%Z → lower_hex (hexdigit d).
Proof.
  intros Hd.
  assert (d ∈ seqZ 0 16) as Hin by (apply elem_of_seqZ; lia).
  vm_compute in Hin. unfold lower_hex.
  repeat (apply elem_of_cons in Hin as [->|Hin];
          [by apply (bool_decide_unpack _); vm_compute|]).
  by apply elem_of_nil in Hin.
Qed.

Lemma hex_of_byte_lower_hex (b : Z) :
  (0 ≤ b < 256)%Z → Forall lower_hex (hex_of_byte b).
Proof.
  intros Hb. unfold hex_of_byte.
  apply Forall_cons; split; [|apply Forall_cons; split; [|constructor]];
    apply hexdigit_lower_hex.
  - rewrite Z.shiftr_div_pow2 by done. change (2 ^ 4)%Z with 16%Z.
    split; [apply Z.div_pos; lia|apply Z.div_lt_upper_bound; lia].
  - change 15%Z with (Z.ones 4). rewrite Z.land_ones by done.
    apply Z.mod_pos_bound. done.
Qed.

Lemma be_bytes_bytes (n : nat) (x : Z) :
  Forall (λ b, 0 ≤ b < 256)%Z (be_bytes n x).
Proof.
  unfold be_bytes. apply Forall_fmap, Forall_forall. intros i _. simpl.
  change 255%Z with (Z.ones 8). rewrite Z.land_ones by done.
  apply Z.mod_pos_bound. done.
Qed.

Lemma length_be_bytes (n : nat) (x : Z) : length (be_bytes n x) = n.
Proof. unfold be_bytes. by rewrite length_fmap, length_rev, length_seq. Qed.

Lemma length_hex (bs : list Z) : length (bs ≫= hex_of_byte) = 2 * length bs.
Proof.
  induction bs as [|b bs IH]; [done|].
  rewrite bind_cons, length_app, IH. simpl. lia.
Qed.

Lemma hex_lower_hex (bs : list Z) :
  Forall (λ b, 0 ≤ b < 256)%Z bs → Forall lower_hex (bs ≫= hex_of_byte).
Proof.
  induction 1 as [|b bs Hb _ IH]; [constructor|]. rewrite bind_cons.
  apply Forall_app. split; [by apply hex_of_byte_lower_hex|done].
Qed.

(** The first eight digits are those of the first word of the digest. *)
Lemma new_description_id_word (r : Z) :
  new_description_id r
  = be_bytes 4 (h0 (sha256 (encode_utf8 (str_of_int r)))) ≫= hex_of_byte.
Proof.
  unfold new_description_id, hexdigest, digest.
  rewrite bind_app. apply take_app_length'.
  by rewrite length_hex, length_be_bytes.
Qed.

Lemma new_description_id_length (r : Z) : length (new_description_id r) = 8.
Proof. by rewrite new_description_id_word, length_hex, length_be_bytes. Qed.

Lemma new_description_id_lower_hex (r : Z) :
  Forall lower_hex (new_description_id r).
Proof.
  rewrite new_description_id_word. apply hex_lower_hex, be_bytes_bytes.
Qed.

End Identifier.

(** C9. Whatever value is drawn, the generated identifier has exactly eight
    characters, all of them lowercase hexadecimal digits: the first eight of
    the hexadecimal digest of the decimal writing of the value. *)
Theorem new_description_id_format (r : Z) :
  length (new_description_id r) = 8
  ∧ Forall lower_hex (new_description_id r)
  ∧ new_description_id r
    = take 8 (Sha256.hexdigest
                (Sha256.sha256 (encode_utf8 (str_of_int r)))).
Proof.
  split; [apply new_description_id_length|].
  split; [apply new_description_id_lower_hex|done].
Qed.

Lemma lower_hex_alnum (c : N) : lower_hex c → Re.is_alnum c = true.
Proof.
  unfold lower_hex. intros Hin. vm_compute in Hin.
  repeat (apply elem_of_cons in Hin as [->|Hin]; [done|]).
  by apply elem_of_nil in Hin.
Qed.

Lemma new_description_id_alnums (r : Z) :
  new_description_id r ≠ [] ∧ alnums (new_description_id r).
Proof.
  split.
  - intros Hnil. pose proof (new_description_id_length r) as Hlen.
    by rewrite Hnil in Hlen.
  - eapply Forall_impl; [apply new_description_id_lower_hex|].
    apply lower_hex_alnum.
Qed.

Lemma alnums_no_LF (s : str) : alnums s → LF ∉ s.
Proof.
  unfold alnums. rewrite Forall_forall. intros Hs Hin. by specialize (Hs LF Hin).
Qed.

(** ** The task rewriter *)

Section Rewriter.

Lemma terminated_LF_last_only (l : str) : terminated l → LF_last_only l.
Proof.
  intros (body & -> & Hb) p q Hl.
  destruct q as [|z q _] using rev_ind; [done|]. exfalso.
  rewrite app_comm_cons, app_assoc in Hl.
  apply app_inj_tail in Hl as [-> _]. apply Hb, elem_of_app. right. left.
Qed.

Lemma unterminated_LF_last_only (l : str) : unterminated l → LF_last_only l.
Proof.
  intros [_ Hl] p q ->. destruct Hl. apply elem_of_app. right. left.
Qed.

Lemma sublist_LF_last_only (x l : str) :
  x `sublist_of` l → LF_last_only l → LF_last_only x.
Proof.
  intros Hx Hl p q ->.
  apply sublist_app_cons_l in Hx as (k1 & k2 & -> & _ & Hq).
  rewrite (Hl k1 k2 eq_refl) in Hq. by apply sublist_nil_r in Hq.
Qed.

(** The new line is one line. *)
Lemma new_line_terminated (des_id line : str) :
  LF ∉ des_id → LF_last_only line → terminated (new_line des_id line).
Proof.
  intros Hid Hline. exists (strip (Re.sub line) ++ lit " des:" ++ des_id).
  split; [unfold new_line; by rewrite <- !app_assoc|].
  rewrite !not_elem_of_app. repeat split;
    [|by apply (bool_decide_unpack _); vm_compute|done].
  apply strip_no_LF. eapply sublist_LF_last_only; [apply sub_sublist|done].
Qed.

Lemma well_cut_alter (f : str → str) (n : nat) (ls : list str) :
  (∀ l, LF_last_only l → terminated (f l)) →
  well_cut ls → well_cut (alter f n ls).
Proof.
  intros Hf. revert n. induction ls as [|l ls IH]; intros n Hls; [done|].
  destruct n as [|n]; simpl in *.
  - left. destruct Hls as [[Hl Hls]|[Hl ->]].
    + split; [|done]. by apply Hf, terminated_LF_last_only.
    + split; [|done]. by apply Hf, unterminated_LF_last_only.
  - destruct Hls as [[Hl Hls]|[Hl ->]]; [left|right]; split; try done.
    by apply IH.
Qed.

(** The loop replaces the line whose number is the task's and copies the
    others. *)
Lemma rewrite_loop_alter (task_id index : Z) (des_id : str) (lines : list str) :
  rewrite_loop task_id des_id index lines =
  join (if decide (index ≤ task_id)%Z
        then alter (new_line des_id) (Z.to_nat (task_id - index)) lines
        else lines).
Proof.
  unfold join. revert index.
  induction lines as [|line lines IH]; intros index; simpl.
  - by case_decide.
  - rewrite IH. destruct (Z.eqb_spec index task_id) as [->|Hne].
    + repeat case_decide; try lia. rewrite Z.sub_diag. done.
    + repeat case_decide; try lia; [|done].
      replace (Z.to_nat (task_id - index))
        with (S (Z.to_nat (task_id - (index + 1)))) by lia.
      done.
Qed.

Lemma readlines_rewrite (task_id : Z) (des_id f : str) :
  LF ∉ des_id →
  readlines (rewrite_loop task_id des_id 1 (readlines f)) =
  if decide (1 ≤ task_id)%Z
  then alter (new_line des_id) (Z.to_nat (task_id - 1)) (readlines f)
  else readlines f.
Proof.
  intros Hid. rewrite rewrite_loop_alter. apply readlines_join.
  case_decide; [|apply readlines_well_cut].
  apply well_cut_alter; [|apply readlines_well_cut].
  intros l Hl. by apply new_line_terminated.
Qed.

(** With a text stream in the place of [sys.stdout] every [print] succeeds:
    the loop appends what it prints to the new file. *)
Lemma inplace_loop_text
    (task_id index : Z) (des_id : str) (lines : list str) (w : world) :
  inplace_loop TextOutput task_id des_id index lines w =
  (Returned (),
   World (todo_file w ++ rewrite_loop task_id des_id index lines) (todo_bak w)
         (descriptions w) (stdin w) (stdout w)).
Proof.
  revert index w. induction lines as [|line lines IH]; intros index w.
  - simpl. rewrite app_nil_r. by destruct w.
  - cbn [inplace_loop rewrite_loop]. unfold mbind, M_bind.
    destruct (index =? task_id)%Z; unfold print_inplace, modify;
      rewrite IH; simpl; by rewrite <- !app_assoc.
Qed.

Lemma rewrite_todo_text (task_id : Z) (des_id : str) (w : world) :
  rewrite_todo TextOutput task_id des_id w =
  (Returned (),
   World (rewrite_loop task_id des_id 1 (readlines (todo_file w)))
         (Some (todo_file w)) (descriptions w) (stdin w) (stdout w)).
Proof.
  unfold rewrite_todo, mbind, M_bind, gets, modify.
  by rewrite inplace_loop_text.
Qed.

(** With a binary stream the first [print] raises: the rewrite of a file
    that has a line stops there, with the new file empty. *)
Lemma inplace_loop_binary
    (task_id index : Z) (des_id line : str) (lines : list str) (w : world) :
  inplace_loop BinaryOutput task_id des_id index (line :: lines) w
  = (Raised TypeError, w).
Proof.
  cbn [inplace_loop]. unfold mbind, M_bind.
  by destruct (index =? task_id)%Z.
Qed.

Lemma rewrite_todo_binary (task_id : Z) (des_id : str) (w : world) :
  rewrite_todo BinaryOutput task_id des_id w =
  (match todo_file w with [] => Returned () | _ :: _ => Raised TypeError end,
   World [] (Some (todo_file w)) (descriptions w) (stdin w) (stdout w)).
Proof.
  unfold rewrite_todo, mbind, M_bind, gets, modify.
  destruct (todo_file w) as [|c f] eqn:Hf; [done|].
  destruct (readlines (c :: f)) as [|line lines] eqn:Hr;
    [by apply readlines_nil in Hr|].
  by rewrite inplace_loop_binary.
Qed.

End Rewriter.

(** C2, as the code has it.  Where the stream that stands for [sys.stdout]
    during the rewrite takes text, as up to Python 3.9, the rewritten target
    line is the original line with the tags found by one scan removed, then
    stripped of white space at both ends, then a space, [des:] and the new
    identifier, and it ends with a line feed whatever ended the original
    line. *)
Theorem rewrite_todo_target_line (w : world) (r task_id : Z) (line : str) :
  (1 ≤ task_id)%Z →
  readlines (todo_file w) !! Z.to_nat (task_id - 1) = Some line →
  ∃ w', rewrite_todo TextOutput task_id (new_description_id r) w
        = (Returned (), w')
        ∧ readlines (todo_file w') !! Z.to_nat (task_id - 1)
          = Some (strip (Re.sub line) ++ lit " des:" ++ new_description_id r
                    ++ [LF]).
Proof.
  intros Hid Hline. rewrite rewrite_todo_text. eexists. split; [done|].
  cbn [todo_file].
  rewrite readlines_rewrite
    by apply alnums_no_LF, new_description_id_alnums.
  rewrite decide_True by done. by rewrite list_lookup_alter_eq, Hline.
Qed.

(** What the loop of the rewrite is written to do, and does where every
    [print] succeeds: it keeps the number of lines, copies every line whose
    number is not the target index unchanged, line feed included, and keeps
    the previous text of the file as the backup. *)
Lemma rewrite_todo_text_frame (w : world) (r task_id : Z) :
  ∃ w', rewrite_todo TextOutput task_id (new_description_id r) w
        = (Returned (), w')
        ∧ length (readlines (todo_file w')) = length (readlines (todo_file w))
        ∧ (∀ j line, (Z.of_nat j + 1)%Z ≠ task_id →
             readlines (todo_file w) !! j = Some line →
             readlines (todo_file w') !! j = Some line)
        ∧ todo_bak w' = Some (todo_file w).
Proof.
  rewrite rewrite_todo_text. eexists. split; [done|]. cbn [todo_file todo_bak].
  rewrite readlines_rewrite
    by apply alnums_no_LF, new_description_id_alnums.
  case_decide; [|done]. rewrite length_alter. repeat split.
  intros j line Hj Hline. rewrite list_lookup_alter_ne by lia. done.
Qed.

(** ** The description argument *)

(** C8, as the code has it.  When the description argument is a single dash,
    the description is all of standard input with the white space removed at
    both ends, the leading as well as the trailing; any other argument is the
    description, unchanged. *)
Theorem optionally_from_stdin_strips_both_ends (input : str) (w : world) :
  (input = lit "-" →
     ∃ l t,
       optionally_from_stdin input w
       = (Returned (strip (stdin w)),
          World (todo_file w) (todo_bak w) (descriptions w) [] (stdout w))
       ∧ stdin w = l ++ strip (stdin w) ++ t
       ∧ blank l ∧ blank t ∧ trimmed (strip (stdin w)))
  ∧ (input ≠ lit "-" → optionally_from_stdin input w = (Returned input, w)).
Proof.
  unfold optionally_from_stdin. split; intros Hin.
  - rewrite decide_True by done.
    destruct (strip_spec (stdin w)) as (l & t & Hs & Hl & Ht & Htrim).
    exists l, t. split; [|done].
    unfold mbind, M_bind, gets, modify, mret, M_ret. simpl.
    by rewrite join_readlines.
  - by rewrite decide_False.
Qed.

(** ** The descriptions directory *)

Section Directory.

Variable inplace_output : output_mode.
Variable description_dir : str.

(** [get_description_file] makes the directory when nothing is at its path,
    and raises exactly when something else than a directory is there. *)
Lemma get_description_file_cases (description_id : str) (w : world) :
  get_description_file description_dir description_id w =
  match descriptions w with
  | Missing =>
      (Returned (description_id ++ lit ".txt"),
       set_descriptions (Directory ∅) w)
  | NotDirectory => (Raised (ValueError (not_a_directory description_dir)), w)
  | Directory _ => (Returned (description_id ++ lit ".txt"), w)
  end.
Proof.
  unfold get_description_file, mbind, M_bind, gets, modify, mret, M_ret, raise.
  by destruct w as [? ? [| |entries] ? ?].
Qed.

Lemma get_description_file_raises (description_id : str) (w : world) :
  (∃ e, (get_description_file description_dir description_id w).1 = Raised e)
  ↔ descriptions w = NotDirectory.
Proof.
  rewrite get_description_file_cases.
  destruct (descriptions w); simpl; split; try done;
    first [by intros [e He]|by eexists].
Qed.

Lemma text_lines_file (w : world) (n : nat) (line : str) :
  text_lines w !! n = Some line → todo_file w ≠ [].
Proof. unfold text_lines. intros Hline Hf. by rewrite Hf in Hline. Qed.

(** [add_description] has the check without the [mkdir]: it raises also when
    nothing is at the path.  When it has written the description, the rewrite
    of the task file goes through with a text stream and stops at its first
    [print] with a binary one. *)
Lemma add_description_cases
    (r task_id : Z) (description line : str) (w : world) :
  text_lines w !! Z.to_nat (task_id - 1) = Some line → (1 ≤ task_id)%Z →
  add_description inplace_output description_dir r task_id description w =
  match descriptions w with
  | Directory entries =>
      let description_file := new_description_id r ++ lit ".txt" in
      match entries !! description_file with
      | Some OtherEntry => (Raised OSError, w)
      | _ =>
          let store :=
            Directory (<[description_file := RegularFile description]>
                         entries) in
          match inplace_output with
          | TextOutput =>
              (Returned (),
               World (rewrite_loop task_id (new_description_id r) 1
                        (readlines (todo_file w)))
                     (Some (todo_file w)) store (stdin w) (stdout w))
          | BinaryOutput =>
              (Raised TypeError,
               World [] (Some (todo_file w)) store (stdin w) (stdout w))
          end
      end
  | _ => (Raised (ValueError (not_a_directory description_dir)), w)
  end.
Proof.
  intros Hline Hid. pose proof (text_lines_file _ _ _ Hline) as Hf.
  unfold add_description, mbind, M_bind.
  rewrite get_task_lookup, decide_True, Hline by done. simpl.
  unfold gets, raise, write_description, mbind, M_bind, gets, raise.
  destruct w as [f bak [| |entries] i o]; simpl in *; try done.
  destruct (entries !! _) as [[]|]; try done; unfold modify;
    (destruct inplace_output;
     [by rewrite rewrite_todo_text
     |rewrite rewrite_todo_binary; simpl; by destruct f]).
Qed.

Lemma add_description_raises
    (r task_id : Z) (description line : str) (w : world) :
  text_lines w !! Z.to_nat (task_id - 1) = Some line → (1 ≤ task_id)%Z →
  (add_description inplace_output description_dir r task_id description w
   = (Raised (ValueError (not_a_directory description_dir)), w))
  ↔ descriptions w = Missing ∨ descriptions w = NotDirectory.
Proof.
  intros Hline Hid. rewrite (add_description_cases _ _ _ line) by done.
  destruct (descriptions w) as [| |entries]; simpl.
  - split; [by left|done].
  - split; [by right|done].
  - destruct (entries !! _) as [[]|], inplace_output;
      (split; [done|by intros [|]]).
Qed.

End Directory.

(** ** Adding, then showing *)

Section RoundTrip.

Variable description_dir : str.


Lemma CR_free_CR_before_LF (s : str) : CR ∉ s → CR_before_LF s.
Proof. intros Hs p q ->. destruct Hs. apply elem_of_app. right. left. Qed.

Lemma CR_before_LF_tail (c : N) (s : str) :
  CR_before_LF (c :: s) → CR_before_LF s.
Proof. intros Hs p q ->. by apply (Hs (c :: p) q). Qed.

Lemma CR_before_LF_app (a b : str) :
  CR_before_LF a → CR_before_LF b → CR_before_LF (a ++ b).
Proof.
  intros Ha Hb p q Hs.
  apply app_eq_inv in Hs as [(k & -> & Hq)|(k & -> & ->)].
  - destruct k as [|d k].
    + by apply (Hb [] q).
    + injection Hq as <- ->. destruct (Ha p k eq_refl) as [q' ->].
      by exists (q' ++ b).
  - by apply (Hb k q).
Qed.

Lemma CR_before_LF_join (ls : list str) :
  Forall CR_before_LF ls → CR_before_LF (join ls).
Proof.
  induction 1 as [|l ls Hl _ IH]; [by intros [|? ?] ? ?|].
  by apply CR_before_LF_app.
Qed.

Lemma well_cut_split (la : list str) (l : str) (lb : list str) :
  well_cut (la ++ l :: lb) → terminated l ∨ (unterminated l ∧ lb = []).
Proof.
  induction la as [|a la IH]; simpl.
  - intros [[? ?]|[? ?]]; auto.
  - intros [[_ H]|[_ H]]; [by apply IH|by destruct la].
Qed.

Lemma readlines_LF_last_only (f l : str) : l ∈ readlines f → LF_last_only l.
Proof.
  intros (la & lb & Hls)%list_elem_of_split.
  pose proof (readlines_well_cut f) as Hcut. rewrite Hls in Hcut.
  apply well_cut_split in Hcut as [Hl|[Hl _]].
  - by apply terminated_LF_last_only.
  - by apply unterminated_LF_last_only.
Qed.

(** The lines of such a text are such texts. *)
Lemma CR_before_LF_lines (f : str) :
  CR_before_LF f → Forall CR_before_LF (readlines f).
Proof.
  intros Hf. apply Forall_forall.
  intros l (la & lb & Hls)%list_elem_of_split.
  pose proof (readlines_well_cut f) as Hcut. rewrite Hls in Hcut.
  apply well_cut_split in Hcut.
  pose proof (join_readlines f) as Hj. unfold join in Hj.
  rewrite Hls, concat_app in Hj. simpl in Hj.
  intros p q ->.
  destruct (Hf (concat la ++ p) (q ++ concat lb)) as [q' Hq];
    [by rewrite <- Hj, <- !app_assoc|].
  destruct q as [|d q]; [|injection Hq as -> _; by eexists].
  exfalso. destruct Hcut as [(body & Hb & _)|[_ ->]]; [|done].
  by apply app_inj_tail in Hb as [_ Hb].
Qed.

(** Read as text, a file with such line ends has the lines of the file, each
    with its carriage return gone. *)
Lemma readlines_universal_newlines (f : str) :
  CR_before_LF f →
  readlines (universal_newlines f) = universal_newlines <$> readlines f.
Proof.
  remember (length f) as n eqn:Hn. revert f Hn.
  induction n as [n IH] using lt_wf_ind. intros f -> Hf.
  destruct f as [|c s]; [done|].
  destruct (c =? CR)%N eqn:Hc.
  - apply N.eqb_eq in Hc as ->. destruct (Hf [] s eq_refl) as [s' ->].
    simpl. f_equal. apply (IH (length s')); [simpl; lia|done|].
    by do 2 apply CR_before_LF_tail in Hf.
  - simpl. rewrite Hc. simpl.
    rewrite (IH (length s)); [|simpl; lia|done|by apply CR_before_LF_tail in Hf].
    destruct (c =? LF)%N; [simpl; by rewrite Hc|].
    destruct (readlines s) as [|l ls]; simpl; by rewrite Hc.
Qed.

(** The new line has no carriage return: the one of a Windows line end goes
    with the white space. *)
Lemma CR_free_new_line (des_id line : str) :
  CR_before_LF line → LF_last_only line → CR ∉ des_id →
  CR ∉ new_line des_id line.
Proof.
  intros Hcr Hlf Hid. unfold new_line. rewrite !not_elem_of_app.
  repeat split; [|by apply (bool_decide_unpack _); vm_compute|done
                 |by apply (bool_decide_unpack _); vm_compute].
  intros Hin.
  destruct (strip_spec (Re.sub line)) as (l & t & Hs & _ & _ & _ & Hlast).
  apply list_elem_of_split in Hin as (m1 & m2 & Hm). rewrite Hm in Hs, Hlast.
  pose proof (sub_sublist line) as Hsub. rewrite Hs in Hsub.
  assert (l ++ (m1 ++ CR :: m2) ++ t = (l ++ m1) ++ CR :: (m2 ++ t)) as Heq
    by by rewrite <- !app_assoc.
  rewrite Heq in Hsub.
  apply sublist_app_cons_l in Hsub as (k1 & k2 & Hline & _ & Hk2).
  destruct (Hcr k1 k2 Hline) as [k2' ->].
  rewrite (Hlf (k1 ++ [CR]) k2') in Hk2 by by rewrite <- app_assoc.
  destruct m2 as [|d m2].
  - specialize (Hlast CR). rewrite last_snoc in Hlast.
    by specialize (Hlast eq_refl).
  - apply sublist_cons_r in Hk2 as [Hnil%sublist_nil_r|(l' & Hd & Hl')]; [done|].
    injection Hd as -> <-. apply sublist_nil_r, app_eq_nil in Hl' as [-> ->].
    specialize (Hlast LF).
    rewrite (last_app_cons m1 [LF] CR) in Hlast. by specialize (Hlast eq_refl).
Qed.

(** The file keeps such line ends through the rewrite. *)
Lemma CR_before_LF_rewrite_loop (task_id : Z) (des_id f : str) :
  CR_before_LF f → CR ∉ des_id →
  CR_before_LF (rewrite_loop task_id des_id 1 (readlines f)).
Proof.
  intros Hf Hid. rewrite rewrite_loop_alter. apply CR_before_LF_join.
  case_decide; [|by apply CR_before_LF_lines].
  apply Forall_alter; [by apply CR_before_LF_lines|].
  intros l Hl%list_elem_of_lookup_2 Hcr.
  apply CR_free_CR_before_LF, CR_free_new_line; [done| |done].
  by eapply readlines_LF_last_only.
Qed.

Lemma tagged_strip (s : str) : tagged (strip s) → tagged s.
Proof.
  intros (pre & c & post & Hs & Hc).
  destruct (strip_spec s) as (l & t & Hst & _). rewrite Hs in Hst.
  exists (l ++ pre), c, (post ++ t). split; [|done].
  rewrite Hst. by rewrite <- !app_assoc.
Qed.

Lemma search_cons_stop (c : N) (rest : str) :
  Re.is_alnum c = false → c ∉ lit "des:" →
  Re.search (c :: rest) = Re.search rest.
Proof.
  intros Hc Hin. rewrite search_unfold.
  by rewrite <- (app_nil_l (c :: rest)) at 1; rewrite pattern_app_stop.
Qed.


(** [show] prints the file of the first tag of the line, and a line feed. *)
Lemma show_description_prints
    (w : world) (task_id : Z) (line des_id content : str)
    (entries : gmap str entry) :
  text_lines w !! Z.to_nat (task_id - 1) = Some line → (1 ≤ task_id)%Z →
  Re.search line = Some des_id →
  descriptions w = Directory entries →
  entries !! (des_id ++ lit ".txt") = Some (RegularFile content) →
  show_description description_dir task_id w =
  (Returned (),
   World (todo_file w) (todo_bak w) (descriptions w) (stdin w)
         (stdout w ++ universal_newlines content ++ [LF])).
Proof.
  intros Hline Hid Hsearch Hdir Hfile.
  unfold show_description, mbind, M_bind.
  rewrite get_task_lookup, decide_True, Hline by done. simpl.
  rewrite parse_task_search. simpl. rewrite Hsearch.
  destruct des_id as [|c i];
    [by apply search_first_tag in Hsearch as (? & ? & _ & Hne & _)|].
  unfold get_description_content, mbind, M_bind.
  rewrite get_description_file_cases, Hdir.
  unfold gets, is_file, read_description, mbind, M_bind, gets, mret, M_ret.
  rewrite Hdir, Hfile. simpl. simpl in Hfile. rewrite Hdir, Hfile.
  unfold print, modify. simpl.
  by rewrite join_readlines, Hdir.
Qed.

End RoundTrip.


(** * The properties at sample inputs *)



(** Where the rewrite goes through, two more ways in which [show] after
    [add] does not give the text back: a line in which the scan for tags
    brings the parts of a tag together keeps an old tag in front of the new
    one, and a carriage return in the task file is a line end for [get_task]
    and not for the rewrite. *)
Example add_then_show_tag_left_behind :
  let w := sample_world (ln "desdes:a:b42 buy milk")
             (Directory {[ lit "b42.txt" := RegularFile (lit "old") ]}) [] in
  ∃ w1 w2,
    add_description TextOutput sample_dir 0 1 (lit "two litres") w
    = (Returned (), w1)
    ∧ todo_file w1 = ln "des:b42 buy milk des:5feceb66"
    ∧ show_description sample_dir 1 w1 = (Returned (), w2)
    ∧ stdout w2 = ln "old".
Proof. do 2 eexists. compute_each. Qed.

Example add_then_show_carriage_return :
  let w := sample_world (lit "buy milk" ++ [CR] ++ ln "call mum")
             (Directory ∅) [] in
  ∃ w1,
    add_description TextOutput sample_dir 0 2 (lit "at six") w
    = (Returned (), w1)
    ∧ todo_file w1 = todo_file w
    ∧ show_description sample_dir 2 w1
      = (Raised (ValueError (no_description 2)), w1).
Proof. eexists. compute_each. Qed.

Example add_then_show_windows_line_ends :
  let w := sample_world (lit "buy milk des:0a1b2c3d" ++ [CR; LF]
                           ++ lit "call mum" ++ [CR; LF])
             (Directory ∅) [] in
  ∃ w1 w2,
    add_description TextOutput sample_dir 0 1 (lit "two litres") w
    = (Returned (), w1)
    ∧ todo_file w1 = ln "buy milk des:5feceb66" ++ lit "call mum" ++ [CR; LF]
    ∧ todo_bak w1 = Some (todo_file w)
    ∧ show_description sample_dir 1 w1 = (Returned (), w2)
    ∧ stdout w2 = ln "two litres".
Proof. do 2 eexists. compute_each. Qed.

(** A directory at the path of the new description file ends [add] with an
    exception that is not a [ValueError], before the task file is opened. *)
Example add_description_directory_in_the_way (mode : output_mode) :
  let w := sample_world (ln "buy milk")
             (Directory {[ lit "5feceb66.txt" := OtherEntry ]}) [] in
  add_description mode sample_dir 0 1 (lit "two litres") w
  = (Raised OSError, w)
  ∧ script mode sample_dir None None (λ _ w, w) 0
      (verb_add 1 (lit "two litres")) w = (1%Z, w).
Proof. destruct mode; compute_each. Qed.

(** C2 fails as stated, whatever stream stands for [sys.stdout] during the
    rewrite.  With the binary stream of Python 3.10 and later there is no
    rewritten line: the rewrite ends in [TypeError] with the task file empty.
    With a text stream the white space in front of the task is removed as
    well, so the new line is not the old one with its tag removed and only its
    end trimmed. *)
Lemma rewrite_todo_target_line_counterexample :
  let w := sample_world (ln "  buy milk des:0a1b2c3d" ++ ln "call mum")
             (Directory ∅) [] in
  let claimed := rstrip (Re.sub (ln "  buy milk des:0a1b2c3d")) ++ lit " des:"
                   ++ new_description_id 0 in
  claimed = lit "  buy milk des:5feceb66"
  ∧ (∃ w',
       rewrite_todo BinaryOutput 1 (new_description_id 0) w
       = (Raised TypeError, w')
       ∧ todo_file w' = []
       ∧ readlines (todo_file w') !! 0%nat = None)
  ∧ (∃ w',
       rewrite_todo TextOutput 1 (new_description_id 0) w = (Returned (), w')
       ∧ readlines (todo_file w') !! 0%nat = Some (ln "buy milk des:5feceb66")
       ∧ readlines (todo_file w') !! 0%nat ≠ Some claimed
       ∧ readlines (todo_file w') !! 0%nat ≠ Some (claimed ++ [LF])).
Proof.
  split; [by vm_compute|]. split; eexists; compute_each.
Qed.

Lemma rewrite_todo_target_line_witness :
  let w := sample_world (ln "buy milk" ++ ln "  call mum des:0a1b2c3d soon ")
             (Directory ∅) [] in
  ∃ w', rewrite_todo TextOutput 2 (new_description_id 0) w = (Returned (), w')
        ∧ readlines (todo_file w') !! Z.to_nat (2 - 1)
          = Some (ln "call mum  soon des:5feceb66").
Proof.
  pose proof (rewrite_todo_target_line
    (sample_world (ln "buy milk" ++ ln "  call mum des:0a1b2c3d soon ")
       (Directory ∅) [])
    0 2 (ln "  call mum des:0a1b2c3d soon ")
    ltac:(lia) ltac:(by vm_compute)) as (w' & Hrun & Hline).
  exists w'. split; [exact Hrun|]. rewrite Hline. by vm_compute.
Defined.

(** C3 is what the loop of the rewrite is written for, and the code misses
    it: with the binary stream that Python 3.10 and later put in the place of
    [sys.stdout], the first [print] raises [TypeError].  The task file, moved
    aside as the backup, is left empty: of its two lines none is kept, and the
    line that was not the target is not copied.  [add] ends there, with the
    description file written, and the script with status 1. *)
Example rewrite_todo_raises_TypeError :
  let w := sample_world (ln "buy milk" ++ ln "call mum des:0a1b2c3d")
             (Directory ∅) [] in
  let w' := World [] (Some (todo_file w)) (Directory ∅) [] [] in
  let w'' := World [] (Some (todo_file w))
               (Directory {[ lit "5feceb66.txt" := RegularFile (lit "at six") ]})
               [] [] in
  rewrite_todo BinaryOutput 2 (new_description_id 0) w = (Raised TypeError, w')
  ∧ length (readlines (todo_file w)) = 2
  ∧ length (readlines (todo_file w')) = 0
  ∧ readlines (todo_file w) !! 0%nat = Some (ln "buy milk")
  ∧ readlines (todo_file w') !! 0%nat = None
  ∧ add_description BinaryOutput sample_dir 0 2 (lit "at six") w
    = (Raised TypeError, w'')
  ∧ script BinaryOutput sample_dir None None (λ _ w, w) 0
      (verb_add 2 (lit "at six")) w = (1%Z, w'').
Proof. compute_each. Qed.

(** C5 fails as stated: the text of the task ends with the line feed of its
    line. *)
Lemma get_task_original_content_counterexample :
  let w := sample_world (ln "buy milk des:5feceb66" ++ ln "call mum")
             (Directory ∅) [] in
  ∃ t, get_task 1 w = (Returned (Some t), w)
       ∧ original_content t = lit "buy milk des:5feceb66" ++ [LF]
       ∧ original_content t ≠ lit "buy milk des:5feceb66".
Proof. eexists. compute_each. Qed.

Lemma get_task_original_content_witness :
  let w := sample_world (ln "buy milk des:5feceb66" ++ ln "call mum")
             (Directory ∅) [] in
  ∃ t, get_task 2 w = (Returned (Some t), w)
       ∧ id t = 2%Z
       ∧ original_content t = ln "call mum"
       ∧ description_id t = Re.search (ln "call mum").
Proof.
  apply (get_task_original_content _ 2 (ln "buy milk des:5feceb66")
           (ln "call mum") []).
  - by vm_compute.
  - right. by vm_compute.
  - by vm_compute.
  - left. exists (lit "call mum"). split; [reflexivity|].
    by apply (bool_decide_unpack _); vm_compute.
Defined.

Lemma get_task_not_found_witness :
  let w := sample_world (ln "buy milk" ++ ln "call mum" ++ ln "walk dog")
             (Directory ∅) [] in
  get_task 5 w = (Returned None, w)
  ∧ show_description sample_dir 5 w
    = (Raised (ValueError (lit "Task #5 not found in todo.txt")), w)
  ∧ (script BinaryOutput sample_dir None None (λ _ w, w) 0 (verb_show 5) w).1
    = 1%Z.
Proof.
  pose proof (get_task_not_found BinaryOutput sample_dir None None (λ _ w, w)
                (sample_world (ln "buy milk" ++ ln "call mum" ++ ln "walk dog")
                   (Directory ∅) []) 0 5 ltac:(lia))
    as (_ & _ & Hnone & Hshow).
  assert (Z.of_nat
            (length
               (text_lines
                  (sample_world (ln "buy milk" ++ ln "call mum" ++ ln "walk dog")
                     (Directory ∅) []))) < 5)%Z as Hlt by by vm_compute.
  destruct (Hshow Hlt) as [Hs Hscript].
  split; [by apply Hnone|]. split; [exact Hs|]. by rewrite Hscript.
Defined.

Lemma non_positive_task_id_witness :
  let w := sample_world (ln "buy milk") (Directory ∅) [] in
  get_task 0 w = (Returned None, w)
  ∧ add_description BinaryOutput sample_dir 7 0 (lit "two litres") w
    = (Raised (ValueError (not_found 0)), w)
  ∧ show_description sample_dir 0 w = (Raised (ValueError (not_found 0)), w)
  ∧ edit_description sample_dir None None (λ _ w, w) 0 w
    = (Raised (ValueError (not_found 0)), w).
Proof.
  apply (non_positive_task_id_not_found BinaryOutput sample_dir None None
           (λ _ w, w)).
  lia.
Defined.

(** C7 holds for [get_description_file] and not for [add]: with nothing at
    the path of the descriptions directory, [show] finds the directory made
    for it, and [add] for an existing task raises the error that says the path
    is not a directory and makes none. *)
Example add_description_missing_directory (mode : output_mode) :
  let w := sample_world (ln "buy milk des:5feceb66") Missing [] in
  add_description mode sample_dir 0 1 (lit "two litres") w
  = (Raised (ValueError
               (lit "/home/user/todo/descriptions is not a directory")), w)
  ∧ get_description_file sample_dir (lit "5feceb66") w
    = (Returned (lit "5feceb66.txt"), sample_world (todo_file w) (Directory ∅) [])
  ∧ show_description sample_dir 1 w
    = (Raised (ValueError
                 (lit "/home/user/todo/descriptions/5feceb66.txt is not a file")),
       sample_world (todo_file w) (Directory ∅) []).
Proof. destruct mode; compute_each. Qed.

(** C8 fails as stated: white space at the beginning of standard input is
    removed too. *)
Lemma optionally_from_stdin_counterexample :
  let w := sample_world [] (Directory ∅) (ln "  multi" ++ ln "line") in
  (optionally_from_stdin (lit "-") w).1 = Returned (ln "multi" ++ lit "line")
  ∧ rstrip (stdin w) = ln "  multi" ++ lit "line"
  ∧ (optionally_from_stdin (lit "-") w).1 ≠ Returned (rstrip (stdin w)).
Proof. compute_each. Qed.

(** * Further properties of the program *)

(** ** Showing and editing *)

Section Commands.

Variable description_dir : str.
Variables EDITOR TODO_DESCRIPTION_EDITOR : option str.
Variable call : list str → world → world.

(** What [show] does for a task with a tag, by what is at the path of the
    descriptions directory. *)
Lemma show_description_tagged
    (w : world) (task_id : Z) (line des_id : str) :
  (1 ≤ task_id)%Z →
  text_lines w !! Z.to_nat (task_id - 1) = Some line →
  Re.search line = Some des_id →
  show_description description_dir task_id w =
  match descriptions w with
  | NotDirectory => (Raised (ValueError (not_a_directory description_dir)), w)
  | Missing =>
      (Raised (ValueError (not_a_file description_dir (des_id ++ lit ".txt"))),
       set_descriptions (Directory ∅) w)
  | Directory entries =>
      match entries !! (des_id ++ lit ".txt") with
      | Some (RegularFile content) =>
          (Returned (),
           World (todo_file w) (todo_bak w) (descriptions w) (stdin w)
                 (stdout w ++ universal_newlines content ++ [LF]))
      | _ =>
          (Raised (ValueError
                     (not_a_file description_dir (des_id ++ lit ".txt"))), w)
      end
  end.
Proof.
  intros Hid Hline Hsearch.
  destruct (descriptions w) as [| |entries] eqn:Hdir.
  - unfold show_description, mbind, M_bind.
    rewrite get_task_lookup, decide_True, Hline by done. simpl.
    rewrite parse_task_search. simpl. rewrite Hsearch.
    destruct des_id as [|c i];
      [by apply search_first_tag in Hsearch as (? & ? & _ & Hne & _)|].
    unfold get_description_content, mbind, M_bind.
    rewrite get_description_file_cases, Hdir.
    unfold gets, is_file. simpl. by rewrite lookup_empty.
  - unfold show_description, mbind, M_bind.
    rewrite get_task_lookup, decide_True, Hline by done. simpl.
    rewrite parse_task_search. simpl. rewrite Hsearch.
    destruct des_id as [|c i];
      [by apply search_first_tag in Hsearch as (? & ? & _ & Hne & _)|].
    unfold get_description_content, mbind, M_bind.
    by rewrite get_description_file_cases, Hdir.
  - destruct (entries !! (des_id ++ lit ".txt")) as [[content|]|] eqn:Hfile.
    + rewrite <- Hdir. by eapply show_description_prints.
    + unfold show_description, mbind, M_bind.
      rewrite get_task_lookup, decide_True, Hline by done. simpl.
      rewrite parse_task_search. simpl. rewrite Hsearch.
      destruct des_id as [|c i];
        [by apply search_first_tag in Hsearch as (? & ? & _ & Hne & _)|].
      unfold get_description_content, mbind, M_bind.
      rewrite get_description_file_cases, Hdir.
      unfold gets, is_file. rewrite Hdir. simpl in *. by rewrite Hfile.
    + unfold show_description, mbind, M_bind.
      rewrite get_task_lookup, decide_True, Hline by done. simpl.
      rewrite parse_task_search. simpl. rewrite Hsearch.
      destruct des_id as [|c i];
        [by apply search_first_tag in Hsearch as (? & ? & _ & Hne & _)|].
      unfold get_description_content, mbind, M_bind.
      rewrite get_description_file_cases, Hdir.
      unfold gets, is_file. rewrite Hdir. simpl in *. by rewrite Hfile.
Qed.

(** Without a tag on the line, [show] and [edit] stop before they look at
    the descriptions directory. *)
Lemma commands_untagged (w : world) (task_id : Z) (line : str) :
  (1 ≤ task_id)%Z →
  text_lines w !! Z.to_nat (task_id - 1) = Some line →
  Re.search line = None →
  show_description description_dir task_id w
  = (Raised (ValueError (no_description task_id)), w)
  ∧ edit_description description_dir EDITOR TODO_DESCRIPTION_EDITOR call
      task_id w
    = (Raised (ValueError (no_description task_id)), w).
Proof.
  intros Hid Hline Hsearch.
  unfold show_description, edit_description, mbind, M_bind.
  rewrite get_task_lookup, decide_True, Hline by done. simpl.
  rewrite parse_task_search. simpl. by rewrite Hsearch.
Qed.

(** What [edit] does for a task with a tag. *)
Lemma edit_description_tagged
    (w : world) (task_id : Z) (line des_id : str) :
  (1 ≤ task_id)%Z →
  text_lines w !! Z.to_nat (task_id - 1) = Some line →
  Re.search line = Some des_id →
  edit_description description_dir EDITOR TODO_DESCRIPTION_EDITOR call task_id w
  = let argv := [default (default (lit "vi") TODO_DESCRIPTION_EDITOR) EDITOR;
                 description_dir ++ lit "/" ++ des_id ++ lit ".txt"] in
    match descriptions w with
    | NotDirectory =>
        (Raised (ValueError (not_a_directory description_dir)), w)
    | Missing => (Returned (), call argv (set_descriptions (Directory ∅) w))
    | Directory _ => (Returned (), call argv w)
    end.
Proof.
  intros Hid Hline Hsearch.
  unfold edit_description, mbind, M_bind.
  rewrite get_task_lookup, decide_True, Hline by done. simpl.
  rewrite parse_task_search. simpl. rewrite Hsearch.
  destruct des_id as [|c i];
    [by apply search_first_tag in Hsearch as (? & ? & _ & Hne & _)|].
  rewrite get_description_file_cases.
  by destruct (descriptions w).
Qed.

End Commands.

(** X1. When the line of the task has no tag, [show] raises the error that
    says no description was found and changes nothing; the script prints that
    message and ends with status 1. *)
Theorem show_description_without_tag
    (inplace_output : output_mode) (description_dir : str)
    (EDITOR TODO_DESCRIPTION_EDITOR : option str)
    (call : list str → world → world)
    (w : world) (r task_id : Z) (line : str) :
  (1 ≤ task_id)%Z →
  text_lines w !! Z.to_nat (task_id - 1) = Some line →
  ¬ tagged line →
  show_description description_dir task_id w
  = (Raised (ValueError (no_description task_id)), w)
  ∧ script inplace_output description_dir EDITOR TODO_DESCRIPTION_EDITOR call r
      (verb_show task_id) w
    = (1%Z, World (todo_file w) (todo_bak w) (descriptions w) (stdin w)
                  (stdout w ++ no_description task_id ++ [LF])).
Proof.
  intros Hid Hline Htag%search_None.
  destruct (commands_untagged description_dir EDITOR TODO_DESCRIPTION_EDITOR
              call w task_id line Hid Hline Htag) as [Hshow _].
  split; [done|]. unfold script, main. by rewrite Hshow.
Qed.

Lemma show_description_without_tag_witness :
  let w := sample_world (ln "buy milk" ++ ln "call mum") Missing [] in
  show_description sample_dir 2 w
  = (Raised (ValueError (lit "No description found for task 2")), w)
  ∧ script BinaryOutput sample_dir None None (λ _ w, w) 0 (verb_show 2) w
    = (1%Z, World (todo_file w) (todo_bak w) (descriptions w) (stdin w)
                  (stdout w ++ no_description 2 ++ [LF])).
Proof.
  apply (show_description_without_tag BinaryOutput sample_dir None None
           (λ _ w, w) _ 0 2 (ln "call mum")).
  - lia.
  - by vm_compute.
  - apply search_None. by vm_compute.
Defined.

(** X2. For a task whose line has a tag, what [show] does is decided by the
    path of the descriptions directory: something that is no directory there
    gives the not-a-directory error; nothing there makes [show] create the
    directory and then fail because the description file is no file; in a
    directory [show] prints the file named after the first tag, read as text,
    and a line feed, and fails when no regular file has that name. *)
Theorem show_description_by_store
    (description_dir : str) (w : world) (task_id : Z) (line des_id : str) :
  (1 ≤ task_id)%Z →
  text_lines w !! Z.to_nat (task_id - 1) = Some line →
  first_tag line des_id →
  show_description description_dir task_id w =
  match descriptions w with
  | NotDirectory => (Raised (ValueError (not_a_directory description_dir)), w)
  | Missing =>
      (Raised (ValueError (description_dir ++ lit "/" ++ des_id
                             ++ lit ".txt is not a file")),
       World (todo_file w) (todo_bak w) (Directory ∅) (stdin w) (stdout w))
  | Directory entries =>
      match entries !! (des_id ++ lit ".txt") with
      | Some (RegularFile content) =>
          (Returned (),
           World (todo_file w) (todo_bak w) (descriptions w) (stdin w)
                 (stdout w ++ universal_newlines content ++ [LF]))
      | _ =>
          (Raised (ValueError (description_dir ++ lit "/" ++ des_id
                                 ++ lit ".txt is not a file")), w)
      end
  end.
Proof.
  intros Hid Hline Htag%search_first_tag.
  rewrite (show_description_tagged _ _ _ line des_id) by done.
  assert (not_a_file description_dir (des_id ++ lit ".txt")
          = description_dir ++ lit "/" ++ des_id ++ lit ".txt is not a file")
    as ->; [|done].
  unfold not_a_file, path_of. rewrite <- !app_assoc. f_equal.
Qed.

Lemma show_description_by_store_witness :
  let w := sample_world (ln "buy milk des:0a1b2c3d and bread des:ffff")
             (Directory {[ lit "0a1b2c3d.txt" := RegularFile (ln "two litres");
                           lit "ffff.txt" := RegularFile (ln "brown") ]}) [] in
  show_description sample_dir 1 w
  = (Returned (),
     World (todo_file w) (todo_bak w) (descriptions w) (stdin w)
           (ln "two litres" ++ [LF])).
Proof.
  pose proof (show_description_by_store sample_dir
    (sample_world (ln "buy milk des:0a1b2c3d and bread des:ffff")
       (Directory {[ lit "0a1b2c3d.txt" := RegularFile (ln "two litres");
                     lit "ffff.txt" := RegularFile (ln "brown") ]}) [])
    1 (ln "buy milk des:0a1b2c3d and bread des:ffff") (lit "0a1b2c3d")
    ltac:(lia) ltac:(by vm_compute)
    ltac:(apply search_first_tag; by vm_compute)) as H.
  vm_compute in H. vm_compute. exact H.
Defined.

(** X3. [show] never changes the task file, its backup or standard input.
    It changes the descriptions path only by creating the missing directory,
    empty; it only appends to standard output, and appends nothing when it
    raises. *)
Theorem show_description_frame
    (description_dir : str) (w : world) (task_id : Z) :
  let w' := (show_description description_dir task_id w).2 in
  todo_file w' = todo_file w
  ∧ todo_bak w' = todo_bak w
  ∧ stdin w' = stdin w
  ∧ (descriptions w' = descriptions w
     ∨ (descriptions w = Missing ∧ descriptions w' = Directory ∅))
  ∧ (∃ out, stdout w' = stdout w ++ out)
  ∧ (∀ e, (show_description description_dir task_id w).1 = Raised e →
       stdout w' = stdout w).
Proof.
  assert (∀ w0 : world, ∃ out, stdout w0 = stdout w0 ++ out) as Hnil
    by (intros w0; exists []; by rewrite app_nil_r).
  destruct (decide (1 ≤ task_id)%Z) as [Hid|Hid].
  - destruct (text_lines w !! Z.to_nat (task_id - 1)) as [line|] eqn:Hline.
    + destruct (Re.search line) as [des_id|] eqn:Hsearch.
      * rewrite (show_description_tagged _ _ _ line des_id) by done.
        destruct (descriptions w) as [| |entries] eqn:Hdir; simpl.
        -- repeat split; auto.
        -- repeat split; auto.
        -- destruct (entries !! _) as [[content|]|]; simpl;
             repeat split; auto; try by eexists.
           by intros e.
      * destruct (commands_untagged description_dir None None (λ _ w, w)
                    w task_id line Hid Hline Hsearch) as [-> _].
        simpl. repeat split; auto.
    + destruct (commands_not_found TextOutput description_dir None None
                  (λ _ w, w)
                  w 0 task_id []) as (_ & -> & _).
      { apply get_task_None. right. apply lookup_ge_None in Hline. lia. }
      simpl. repeat split; auto.
  - destruct (commands_not_found TextOutput description_dir None None
                  (λ _ w, w)
                w 0 task_id []) as (_ & -> & _).
    { apply get_task_None. left. lia. }
    simpl. repeat split; auto.
Qed.



(** X5. For a task whose line has a tag, [edit] hands the path of the
    description file of the first tag to the editor: the one of [EDITOR] if
    that is set, else the one of [TODO_DESCRIPTION_EDITOR], else [vi].  It
    does so whether or not the file exists, creates the descriptions
    directory when nothing is at its path, and raises without starting the
    editor when something else than a directory is there. *)
Theorem edit_description_launches_editor
    (description_dir : str) (EDITOR TODO_DESCRIPTION_EDITOR : option str)
    (call : list str → world → world)
    (w : world) (task_id : Z) (line des_id : str) :
  (1 ≤ task_id)%Z →
  text_lines w !! Z.to_nat (task_id - 1) = Some line →
  first_tag line des_id →
  edit_description description_dir EDITOR TODO_DESCRIPTION_EDITOR call task_id w
  = let editor := match EDITOR, TODO_DESCRIPTION_EDITOR with
                  | Some e, _ => e
                  | None, Some e => e
                  | None, None => lit "vi"
                  end in
    let argv := [editor; description_dir ++ lit "/" ++ des_id ++ lit ".txt"] in
    match descriptions w with
    | NotDirectory =>
        (Raised (ValueError (not_a_directory description_dir)), w)
    | Missing =>
        (Returned (),
         call argv (World (todo_file w) (todo_bak w) (Directory ∅) (stdin w)
                          (stdout w)))
    | Directory _ => (Returned (), call argv w)
    end.
Proof.
  intros Hid Hline Htag%search_first_tag.
  rewrite (edit_description_tagged _ _ _ _ _ _ line des_id) by done.
  by destruct EDITOR, TODO_DESCRIPTION_EDITOR.
Qed.

Lemma edit_description_launches_editor_witness :
  let w := sample_world (ln "buy milk des:0a1b2c3d") (Directory ∅) [] in
  let call := λ (argv : list str) (w : world),
    World (todo_file w) (todo_bak w) (descriptions w) (stdin w)
          (stdout w ++ join argv) in
  edit_description sample_dir None (Some (lit "nano")) call 1 w
  = (Returned (),
     call [lit "nano"; lit "/home/user/todo/descriptions/0a1b2c3d.txt"] w).
Proof.
  pose proof (edit_description_launches_editor sample_dir None
    (Some (lit "nano"))
    (λ (argv : list str) (w : world),
       World (todo_file w) (todo_bak w) (descriptions w) (stdin w)
             (stdout w ++ join argv))
    (sample_world (ln "buy milk des:0a1b2c3d") (Directory ∅) [])
    1 (ln "buy milk des:0a1b2c3d") (lit "0a1b2c3d")
    ltac:(lia) ltac:(by vm_compute)
    ltac:(apply search_first_tag; by vm_compute)) as H.
  vm_compute in H. vm_compute. exact H.
Defined.

(** X6. When the line of the task has no tag, [edit] raises the error that
    says no description was found: the editor is not started and the
    descriptions directory is not created; the script prints the message and
    ends with status 1. *)
Theorem edit_description_without_tag
    (inplace_output : output_mode) (description_dir : str)
    (EDITOR TODO_DESCRIPTION_EDITOR : option str)
    (call : list str → world → world)
    (w : world) (r task_id : Z) (line : str) :
  (1 ≤ task_id)%Z →
  text_lines w !! Z.to_nat (task_id - 1) = Some line →
  ¬ tagged line →
  edit_description description_dir EDITOR TODO_DESCRIPTION_EDITOR call task_id w
  = (Raised (ValueError (no_description task_id)), w)
  ∧ script inplace_output description_dir EDITOR TODO_DESCRIPTION_EDITOR call r
      (verb_edit task_id) w
    = (1%Z, World (todo_file w) (todo_bak w) (descriptions w) (stdin w)
                  (stdout w ++ no_description task_id ++ [LF])).
Proof.
  intros Hid Hline Htag%search_None.
  destruct (commands_untagged description_dir EDITOR TODO_DESCRIPTION_EDITOR
              call w task_id line Hid Hline Htag) as [_ Hedit].
  split; [done|]. unfold script, main. by rewrite Hedit.
Qed.

Lemma edit_description_without_tag_witness :
  let w := sample_world (ln "buy milk des: soon") Missing [] in
  let call := λ (argv : list str) (w : world), sample_world [] Missing [] in
  edit_description sample_dir None None call 1 w
  = (Raised (ValueError (lit "No description found for task 1")), w)
  ∧ script BinaryOutput sample_dir None None call 0 (verb_edit 1) w
    = (1%Z, World (todo_file w) (todo_bak w) (descriptions w) (stdin w)
                  (stdout w ++ no_description 1 ++ [LF])).
Proof.
  apply (edit_description_without_tag BinaryOutput sample_dir None None
           (λ _ _, sample_world [] Missing []) _ 0 1 (ln "buy milk des: soon")).
  - lia.
  - by vm_compute.
  - apply search_None. by vm_compute.
Defined.

(** X7. [get_description_file] raises exactly when something that is no
    directory is at the path of the descriptions directory, and then changes
    nothing.  When nothing is there it creates the directory, empty; an
    existing directory is left as it is.  The file it names is the identifier
    followed by [.txt]. *)
Theorem get_description_file_outcome
    (description_dir : str) (description_id : str) (w : world) :
  ((∃ e, (get_description_file description_dir description_id w).1 = Raised e)
   ↔ descriptions w = NotDirectory)
  ∧ (descriptions w = NotDirectory →
     get_description_file description_dir description_id w
     = (Raised (ValueError (description_dir ++ lit " is not a directory")), w))
  ∧ (descriptions w = Missing →
     get_description_file description_dir description_id w
     = (Returned (description_id ++ lit ".txt"),
        World (todo_file w) (todo_bak w) (Directory ∅) (stdin w) (stdout w)))
  ∧ (∀ entries, descriptions w = Directory entries →
     get_description_file description_dir description_id w
     = (Returned (description_id ++ lit ".txt"), w)).
Proof.
  split; [apply get_description_file_raises|].
  rewrite get_description_file_cases.
  repeat split; intros;
    match goal with H : descriptions w = _ |- _ => by rewrite H end.
Qed.

(** ** Adding *)

(** All that [add] can do. *)
Lemma add_description_eval
    (inplace_output : output_mode) (description_dir : str) (r task_id : Z)
    (description : str) (w : world) :
  add_description inplace_output description_dir r task_id description w =
  match (if decide (1 ≤ task_id)%Z
         then text_lines w !! Z.to_nat (task_id - 1) else None) with
  | None => (Raised (ValueError (not_found task_id)), w)
  | Some _ =>
      match descriptions w with
      | Directory entries =>
          let description_file := new_description_id r ++ lit ".txt" in
          match entries !! description_file with
          | Some OtherEntry => (Raised OSError, w)
          | _ =>
              let store :=
                Directory (<[description_file := RegularFile description]>
                             entries) in
              match inplace_output with
              | TextOutput =>
                  (Returned (),
                   World (rewrite_loop task_id (new_description_id r) 1
                            (readlines (todo_file w)))
                         (Some (todo_file w)) store (stdin w) (stdout w))
              | BinaryOutput =>
                  (Raised TypeError,
                   World [] (Some (todo_file w)) store (stdin w) (stdout w))
              end
          end
      | _ => (Raised (ValueError (not_a_directory description_dir)), w)
      end
  end.
Proof.
  case_decide as Hid.
  - destruct (text_lines w !! Z.to_nat (task_id - 1)) as [line|] eqn:Hline.
    + by apply (add_description_cases _ _ _ _ _ line).
    + apply (commands_not_found inplace_output description_dir None None
               (λ _ w, w)), get_task_None.
      right. apply lookup_ge_None in Hline. lia.
  - apply (commands_not_found inplace_output description_dir None None
             (λ _ w, w)), get_task_None.
    left. lia.
Qed.

Lemma alter_out_of_range {A} (f : A → A) (n : nat) (l : list A) :
  l !! n = None → alter f n l = l.
Proof.
  intros Hn. rewrite <- (list_alter_id (λ x, x) l n) at 2 by done.
  apply list_alter_ext; [|done]. intros x Hx. congruence.
Qed.

(** X8. Whenever [add] gets as far as the rewrite of the task file, that is,
    whenever it returns or ends in [TypeError], the descriptions directory was
    there before, the file of the new identifier now holds exactly the text
    given, whatever it held before, and every other entry of the directory is
    as it was: no description is deleted, also not the one of a tag that [add]
    replaces.  The backup holds the previous task file, and the standard
    streams are untouched.  With a text stream in the place of [sys.stdout],
    as up to Python 3.9, [add] has returned and the task file is what the loop
    printed; with the binary stream of Python 3.10 and later [add] has raised
    [TypeError] and the task file is empty. *)
Theorem add_description_store
    (inplace_output : output_mode) (description_dir : str) (w w1 : world)
    (r task_id : Z) (description : str) (o : outcome ()) :
  add_description inplace_output description_dir r task_id description w
  = (o, w1) →
  o = Returned () ∨ o = Raised TypeError →
  ∃ entries entries1,
    descriptions w = Directory entries
    ∧ descriptions w1 = Directory entries1
    ∧ entries1 !! (new_description_id r ++ lit ".txt")
      = Some (RegularFile description)
    ∧ (∀ name, name ≠ new_description_id r ++ lit ".txt" →
         entries1 !! name = entries !! name)
    ∧ todo_bak w1 = Some (todo_file w)
    ∧ stdin w1 = stdin w
    ∧ stdout w1 = stdout w
    ∧ match inplace_output with
      | TextOutput =>
          o = Returned ()
          ∧ todo_file w1 = rewrite_loop task_id (new_description_id r) 1
                             (readlines (todo_file w))
      | BinaryOutput => o = Raised TypeError ∧ todo_file w1 = []
      end.
Proof.
  rewrite add_description_eval.
  destruct (if decide _ then _ else _) as [line|];
    [|by intros [= <- <-] [|]].
  destruct (descriptions w) as [| |entries];
    [by intros [= <- <-] [|]..|].
  cbv zeta. set (name := new_description_id r ++ lit ".txt").
  intros Hadd Ho.
  exists entries, (<[name := RegularFile description]> entries).
  destruct (entries !! name) as [[content|]|] eqn:Hname;
    [|by injection Hadd as <- <-; destruct Ho|];
    (destruct inplace_output; injection Hadd as <- <-; simpl;
     (repeat split; [apply lookup_insert_eq|]);
     intros name' Hne; by apply lookup_insert_ne).
Qed.

Lemma add_description_store_witness :
  let w := sample_world (ln "buy milk des:0a1b2c3d")
             (Directory {[ lit "0a1b2c3d.txt" := RegularFile (lit "old");
                           lit "5feceb66.txt" := RegularFile (lit "taken") ]})
             [] in
  (∃ w1,
     add_description BinaryOutput sample_dir 0 1 (lit "two litres") w
     = (Raised TypeError, w1)
     ∧ ∃ entries entries1,
         descriptions w = Directory entries
         ∧ descriptions w1 = Directory entries1
         ∧ entries1 !! (new_description_id 0 ++ lit ".txt")
           = Some (RegularFile (lit "two litres"))
         ∧ (∀ name, name ≠ new_description_id 0 ++ lit ".txt" →
              entries1 !! name = entries !! name)
         ∧ todo_bak w1 = Some (todo_file w)
         ∧ stdin w1 = stdin w
         ∧ stdout w1 = stdout w
         ∧ (Raised TypeError : outcome ()) = Raised TypeError
         ∧ todo_file w1 = [])
  ∧ (∃ w1,
       add_description TextOutput sample_dir 0 1 (lit "two litres") w
       = (Returned (), w1)
       ∧ ∃ entries entries1,
           descriptions w = Directory entries
           ∧ descriptions w1 = Directory entries1
           ∧ entries1 !! (new_description_id 0 ++ lit ".txt")
             = Some (RegularFile (lit "two litres"))
           ∧ (∀ name, name ≠ new_description_id 0 ++ lit ".txt" →
                entries1 !! name = entries !! name)
           ∧ todo_bak w1 = Some (todo_file w)
           ∧ stdin w1 = stdin w
           ∧ stdout w1 = stdout w
           ∧ Returned () = Returned ()
           ∧ todo_file w1 = rewrite_loop 1 (new_description_id 0) 1
                              (readlines (todo_file w))).
Proof.
  intros w. split.
  - eexists. split; [by vm_compute|].
    apply (add_description_store BinaryOutput sample_dir w _ 0 1
             (lit "two litres") (Raised TypeError)).
    + by vm_compute.
    + by right.
  - eexists. split; [by vm_compute|].
    apply (add_description_store TextOutput sample_dir w _ 0 1
             (lit "two litres") (Returned ())).
    + by vm_compute.
    + by left.
Defined.



(** X10. When the index names no line of the task file as the rewrite cuts
    it, what the rewrite does is decided by the stream that stands for
    [sys.stdout].  With a text stream, as up to Python 3.9, it leaves the text
    of the file as it is and writes the backup all the same.  With the binary
    stream of Python 3.10 and later it raises [TypeError] at the first line,
    whether or not that is the target, and leaves the task file empty beside
    its backup; only an empty file is rewritten without error. *)
Theorem rewrite_todo_without_target
    (inplace_output : output_mode) (w : world) (task_id : Z) (des_id : str) :
  (task_id < 1 ∨ Z.of_nat (length (readlines (todo_file w))) < task_id)%Z →
  rewrite_todo inplace_output task_id des_id w =
  match inplace_output with
  | TextOutput =>
      (Returned (),
       World (todo_file w) (Some (todo_file w)) (descriptions w) (stdin w)
             (stdout w))
  | BinaryOutput =>
      (match todo_file w with
       | [] => Returned ()
       | _ :: _ => Raised TypeError
       end,
       World [] (Some (todo_file w)) (descriptions w) (stdin w) (stdout w))
  end.
Proof.
  intros Hid. destruct inplace_output; [|apply rewrite_todo_binary].
  rewrite rewrite_todo_text. do 2 f_equal.
  rewrite rewrite_loop_alter. case_decide; [|apply join_readlines].
  rewrite alter_out_of_range; [apply join_readlines|].
  apply lookup_ge_None_2. lia.
Qed.

Lemma rewrite_todo_without_target_witness :
  let w := sample_world (lit "buy milk" ++ [CR] ++ ln "call mum")
             (Directory ∅) [] in
  rewrite_todo TextOutput 2 (new_description_id 0) w
  = (Returned (),
     World (todo_file w) (Some (todo_file w)) (descriptions w) (stdin w)
           (stdout w))
  ∧ rewrite_todo BinaryOutput 2 (new_description_id 0) w
    = (Raised TypeError,
       World [] (Some (todo_file w)) (descriptions w) (stdin w) (stdout w)).
Proof.
  split.
  - apply (rewrite_todo_without_target TextOutput _ 2 (new_description_id 0)).
    right. by vm_compute.
  - apply (rewrite_todo_without_target BinaryOutput
             (sample_world (lit "buy milk" ++ [CR] ++ ln "call mum")
                (Directory ∅) [])
             2 (new_description_id 0)).
    right. by vm_compute.
Defined.

(** ** Tags and white space *)

Section Tags.

Import Re.

Lemma length_des : length (lit "des:") = 4.
Proof. by vm_compute. Qed.

Lemma drop_match (i post : str) :
  drop (4 + length i) (lit "des:" ++ i ++ post) = post.
Proof.
  rewrite app_assoc. apply drop_app_length'.
  by rewrite length_app, length_des.
Qed.

(** A character that no tag contains separates what the scan removes before
    it from what it removes behind. *)
Lemma sub_app_stop (x : str) (c : N) (rest : str) :
  is_alnum c = false → c ∉ lit "des:" →
  sub (x ++ c :: rest) = sub x ++ c :: sub rest.
Proof.
  intros Hc Hin. remember (length x) as n eqn:Hn. revert x Hn.
  induction n as [n IH] using lt_wf_ind. intros x ->.
  rewrite (sub_unfold (x ++ c :: rest)), (sub_unfold x).
  rewrite pattern_app_stop by done.
  destruct (DESCRIPTION_ID_PATTERN x) as [i|] eqn:Hp.
  - apply pattern_Some in Hp as (post & -> & _).
    rewrite drop_match.
    replace ((lit "des:" ++ i ++ post) ++ c :: rest)
      with (lit "des:" ++ i ++ post ++ c :: rest) by by rewrite <- !app_assoc.
    rewrite drop_match. apply (IH (length post)); [|done].
    rewrite !length_app, length_des. lia.
  - destruct x as [|d x]; [done|]. simpl. f_equal.
    apply (IH (length x)); [simpl; lia|done].
Qed.

Lemma search_blank_l (l s : str) : blank l → search (l ++ s) = search s.
Proof.
  induction 1 as [|c l Hc _ IH]; [done|]. rewrite <- app_comm_cons.
  destruct (isspace_stop c Hc). by rewrite search_cons_stop.
Qed.

Lemma search_blank (t : str) : blank t → search t = None.
Proof.
  intros Ht. rewrite <- (app_nil_r t). by rewrite search_blank_l.
Qed.

Lemma search_blank_r (m t : str) : blank t → search (m ++ t) = search m.
Proof.
  intros Ht. destruct Ht as [|c t Hc Ht]; [by rewrite app_nil_r|].
  destruct (isspace_stop c Hc).
  rewrite search_app_stop, (search_blank (c :: t)) by by try constructor.
  by destruct (search m).
Qed.

(** Stripping takes no tag away. *)
Lemma search_strip (s : str) : search (strip s) = search s.
Proof.
  destruct (strip_spec s) as (l & t & Hs & Hl & Ht & _). rewrite Hs at 2.
  by rewrite search_blank_l, search_blank_r.
Qed.

Lemma lstrip_blank_app (l s : str) : blank l → lstrip (l ++ s) = lstrip s.
Proof. induction 1 as [|c l Hc _ IH]; [done|]. simpl. by rewrite Hc. Qed.

Lemma lstrip_trimmed (s : str) :
  (∀ c, head s = Some c → isspace c = false) → lstrip s = s.
Proof. destruct s as [|c s]; [done|]. intros Hh. simpl. by rewrite (Hh c). Qed.

Lemma rstrip_app_blank (s t : str) : blank t → rstrip (s ++ t) = rstrip s.
Proof.
  intros Ht. unfold rstrip. rewrite reverse_app, lstrip_blank_app; [done|].
  by apply Forall_reverse.
Qed.

Lemma rstrip_trimmed (s : str) :
  (∀ c, last s = Some c → isspace c = false) → rstrip s = s.
Proof.
  intros Hl. unfold rstrip. rewrite lstrip_trimmed, reverse_involutive; [done|].
  intros c. rewrite head_reverse. apply Hl.
Qed.

(** What [strip] returns is determined by the three parts of the text. *)
Lemma strip_unique (l m t : str) :
  blank l → blank t → trimmed m → strip (l ++ m ++ t) = m.
Proof.
  intros Hl Ht [Hhead Hlast]. unfold strip. rewrite lstrip_blank_app by done.
  destruct m as [|c m].
  - simpl. rewrite <- (app_nil_r t), lstrip_blank_app by done. done.
  - rewrite lstrip_trimmed by (intros d [= <-]; by apply Hhead).
    by rewrite rstrip_app_blank, rstrip_trimmed.
Qed.

Lemma strip_nil (s : str) : strip s = [] ↔ blank s.
Proof.
  split.
  - intros Hs. destruct (strip_spec s) as (l & t & Heq & Hl & Ht & _).
    rewrite Heq, Hs. by apply Forall_app.
  - intros Hs. rewrite <- (app_nil_r s).
    by apply (strip_unique s [] []); [|constructor|].
Qed.

(** The tag of the new line, seen by the parser: the remains of the old line
    come first. *)
Lemma search_new_line_default (des_id line : str) :
  des_id ≠ [] → alnums des_id →
  search (new_line des_id line) = Some (default des_id (search (sub line))).
Proof.
  intros Hne Hal. unfold new_line.
  assert (lit " des:" = 32%N :: lit "des:") as -> by by vm_compute.
  rewrite <- app_comm_cons,
    search_app_stop by by apply (isspace_stop 32).
  rewrite search_strip. destruct (search (sub line)) as [i|]; [done|].
  rewrite search_cons_stop by by apply (isspace_stop 32).
  rewrite search_unfold.
  assert (DESCRIPTION_ID_PATTERN (lit "des:" ++ des_id ++ [LF])
          = Some des_id) as ->; [|done].
  apply pattern_Some. exists [LF]. repeat split; try done.
  by intros c [= <-].
Qed.

(** The line that replaces a line that the rewrite wrote. *)
Lemma new_line_twice (id1 id2 line : str) :
  id1 ≠ [] → alnums id1 → ¬ tagged (sub line) →
  new_line id2 (new_line id1 line) = new_line id2 line.
Proof.
  intros Hne Hal Hsub.
  assert (strip (sub (new_line id1 line)) = strip (sub line)) as Heq.
  { unfold new_line.
    assert (lit " des:" = 32%N :: lit "des:") as -> by by vm_compute.
    rewrite <- app_comm_cons,
      sub_app_stop by by apply (isspace_stop 32).
    rewrite (sub_untagged (strip (sub line)))
      by (intros Ht%tagged_strip; done).
    rewrite (sub_first_tag (lit "des:" ++ id1 ++ [LF]) [] id1 [LF]).
    - destruct (strip_spec (sub line)) as (_ & _ & _ & _ & _ & Htrim).
      apply (strip_unique [] (strip (sub line)) (32%N :: [] ++ sub [LF]));
        [constructor|by repeat constructor|done].
    - repeat split; try done; [by intros c [= <-]|intros; simpl; lia]. }
  unfold new_line at 1 3. by rewrite Heq.
Qed.

Lemma universal_newlines_no_CR (s : str) : CR ∉ universal_newlines s.
Proof.
  remember (length s) as n eqn:Hn. revert s Hn.
  induction n as [n IH] using lt_wf_ind. intros s ->.
  destruct s as [|c s]; [apply not_elem_of_nil|]. simpl.
  destruct (N.eqb_spec c CR) as [->|Hc].
  - apply not_elem_of_cons. split; [done|].
    destruct s as [|d s]; [apply not_elem_of_nil|].
    destruct (d =? LF)%N.
    + apply (IH (length s)); [simpl; lia|done].
    + apply (IH (length (d :: s))); [simpl; lia|done].
  - apply not_elem_of_cons. split; [done|].
    apply (IH (length s)); [simpl; lia|done].
Qed.

Lemma readlines_not_nil (f l : str) : l ∈ readlines f → l ≠ [].
Proof.
  intros (la & lb & Hls)%list_elem_of_split.
  pose proof (readlines_well_cut f) as Hcut. rewrite Hls in Hcut.
  apply well_cut_split in Hcut as [(body & -> & _)|[[Hne _] _]]; [|done].
  by destruct body.
Qed.

Lemma readlines_subseteq (f l : str) (c : N) :
  l ∈ readlines f → c ∈ l → c ∈ f.
Proof.
  intros Hl Hc. rewrite <- (join_readlines f).
  apply list_elem_of_In, in_concat. exists l. by rewrite <- !list_elem_of_In.
Qed.

End Tags.

(** X11. Adding again replaces the tag, it does not add a second one: the
    line that the rewrite makes of a line that it made before, for another
    identifier, is the line that it makes of the original line for that
    identifier, when one scan for tags leaves no tag in the original line. *)
Theorem rewritten_line_again (r1 r2 : Z) (line : str) :
  ¬ tagged (Re.sub line) →
  strip (Re.sub (strip (Re.sub line) ++ lit " des:" ++ new_description_id r1
                   ++ [LF]))
    ++ lit " des:" ++ new_description_id r2 ++ [LF]
  = strip (Re.sub line) ++ lit " des:" ++ new_description_id r2 ++ [LF].
Proof.
  intros Hsub. destruct (new_description_id_alnums r1) as [Hne Hal].
  exact (new_line_twice _ (new_description_id r2) line Hne Hal Hsub).
Qed.

Lemma rewritten_line_again_witness :
  strip (Re.sub (strip (Re.sub (ln "  call mum des:0a1b2c3d soon "))
                   ++ lit " des:" ++ new_description_id 0 ++ [LF]))
    ++ lit " des:" ++ new_description_id 1 ++ [LF]
  = strip (Re.sub (ln "  call mum des:0a1b2c3d soon "))
      ++ lit " des:" ++ new_description_id 1 ++ [LF].
Proof.
  apply (rewritten_line_again 0 1 (ln "  call mum des:0a1b2c3d soon ")).
  apply search_None. by vm_compute.
Defined.

(** X12. The scan that removes the tags only removes characters, and it
    changes a text exactly when the text has a tag. *)
Theorem sub_changes_tagged_only (s : str) :
  (Re.sub s = s ↔ ¬ tagged s) ∧ Re.sub s `sublist_of` s.
Proof.
  split; [|apply sub_sublist]. split; [|apply sub_untagged].
  intros Hsub [des_id (pre & post & Hf)%search_first_tag]%search_tagged.
  pose proof (sub_first_tag _ _ _ _ Hf) as Hs.
  destruct Hf as (Heq & Hne & _).
  pose proof (sublist_length _ _ (sub_sublist post)) as Hlen.
  apply (f_equal length) in Hs. rewrite Hsub in Hs. rewrite Heq in Hs at 1.
  rewrite !length_app, length_des in Hs. lia.
Qed.

(** X13. A task that [get_task] returns has the index asked for, which names
    a line of the file, and its text is that of one line as a text stream
    gives it: not empty, without carriage return, with a line feed at most as
    its last character; its identifier is what the pattern finds in that
    text.  Looking up changes nothing. *)
Theorem get_task_invariant (w w' : world) (task_id : Z) (t : Task) :
  get_task task_id w = (Returned (Some t), w') →
  w' = w
  ∧ id t = task_id
  ∧ (1 ≤ task_id ≤ Z.of_nat (length (text_lines w)))%Z
  ∧ original_content t ≠ []
  ∧ (CR ∉ original_content t)
  ∧ LF_last_only (original_content t)
  ∧ description_id t = Re.search (original_content t).
Proof.
  rewrite get_task_lookup. case_decide as Hid; [|done].
  destruct (text_lines w !! Z.to_nat (task_id - 1)) as [line|] eqn:Hline;
    [|done].
  simpl. rewrite parse_task_search. intros [= <- <-]. simpl.
  pose proof (lookup_lt_Some _ _ _ Hline) as Hlt.
  apply list_elem_of_lookup_2 in Hline. unfold text_lines in *.
  repeat split; try done; try lia.
  - by eapply readlines_not_nil.
  - intros Hin. apply (universal_newlines_no_CR (todo_file w)).
    by eapply readlines_subseteq.
  - by eapply readlines_LF_last_only.
Qed.

Lemma get_task_invariant_witness :
  let w := sample_world (lit "buy milk" ++ [CR] ++ lit "call mum des:ab")
             Missing [] in
  let t := mkTask 2 (lit "call mum des:ab") (Some (lit "ab")) in
  w = w
  ∧ id t = 2%Z
  ∧ (1 ≤ 2 ≤ Z.of_nat (length (text_lines w)))%Z
  ∧ original_content t ≠ []
  ∧ (CR ∉ original_content t)
  ∧ LF_last_only (original_content t)
  ∧ description_id t = Re.search (original_content t).
Proof.
  apply (get_task_invariant _ _ 2). by vm_compute.
Defined.

(** X14. With a dash as the description argument, the description is empty
    exactly when standard input holds white space only, or nothing. *)
Theorem optionally_from_stdin_empty (w : world) :
  (optionally_from_stdin (lit "-") w).1 = Returned [] ↔ blank (stdin w).
Proof.
  unfold optionally_from_stdin. rewrite decide_True by done.
  unfold mbind, M_bind, gets, modify, mret, M_ret. simpl.
  rewrite join_readlines, <- strip_nil. split; [by intros [= ->]|by intros ->].
Qed.

(** X15. The line that the rewrite writes, read by the parser: the
    identifier found is the new one, unless the scan that removed the old tags
    left a tag behind, which then comes first. *)
Theorem parse_task_rewritten_line (task_id r : Z) (line : str) :
  description_id
    (parse_task task_id
       (strip (Re.sub line) ++ lit " des:" ++ new_description_id r ++ [LF]))
  = Some (default (new_description_id r) (Re.search (Re.sub line))).
Proof.
  rewrite parse_task_search.
  destruct (new_description_id_alnums r) as [Hne Hal].
  exact (search_new_line_default _ line Hne Hal).
Qed.

(** ** The commands together *)




(** X17. Where the stream that stands for [sys.stdout] during the rewrite
    takes text, as up to Python 3.9, [add] for one task leaves what [show]
    does for the others as it was: in a task file with Unix or Windows line
    ends, after an [add] that returned, [show] for any other index returns or
    raises the same and prints the same, as long as the line of that index
    does not already carry the identifier that [add] generated. *)
Theorem add_description_other_tasks
    (description_dir : str) (w w1 : world) (r task_id j : Z)
    (description : str) :
  add_description TextOutput description_dir r task_id description w
  = (Returned (), w1) →
  CR_before_LF (todo_file w) →
  j ≠ task_id →
  (∀ line, text_lines w !! Z.to_nat (j - 1) = Some line →
     Re.search line ≠ Some (new_description_id r)) →
  (show_description description_dir j w1).1
  = (show_description description_dir j w).1
  ∧ stdout (show_description description_dir j w1).2
    = stdout (show_description description_dir j w).2.
Proof.
  rewrite add_description_eval. case_decide as Hid; [|done].
  destruct (text_lines w !! Z.to_nat (task_id - 1)) as [line|]; [|done].
  destruct (descriptions w) as [| |entries] eqn:Hdir; [done..|]. cbv zeta.
  set (name := new_description_id r ++ lit ".txt").
  intros Hadd Hcr Hj Hother.
  assert (w1 = World (rewrite_loop task_id (new_description_id r) 1
                        (readlines (todo_file w)))
                     (Some (todo_file w))
                     (Directory (<[name := RegularFile description]> entries))
                     (stdin w) (stdout w)) as ->.
  { destruct (entries !! name) as [[]|]; congruence. }
  clear Hadd. set (w1 := World _ _ _ _ _).
  destruct (new_description_id_alnums r) as [Hne Hal].
  assert (CR ∉ new_description_id r) as Hidcr.
  { unfold alnums in Hal. rewrite Forall_forall in Hal.
    intros Hin. by specialize (Hal CR Hin). }
  assert (length (text_lines w1) = length (text_lines w)) as Hlen.
  { unfold text_lines, w1. cbn [todo_file].
    rewrite !readlines_universal_newlines
      by (done || by apply CR_before_LF_rewrite_loop).
    rewrite !length_fmap, readlines_rewrite by by apply alnums_no_LF.
    rewrite decide_True by done. apply length_alter. }
  destruct (decide (1 ≤ j)%Z) as [Hj1|Hj1].
  - assert (text_lines w1 !! Z.to_nat (j - 1)
            = text_lines w !! Z.to_nat (j - 1)) as Hsame.
    { unfold text_lines, w1. cbn [todo_file].
      rewrite !readlines_universal_newlines
        by (done || by apply CR_before_LF_rewrite_loop).
      rewrite !list_lookup_fmap, readlines_rewrite by by apply alnums_no_LF.
      rewrite decide_True by done. by rewrite list_lookup_alter_ne by lia. }
    destruct (text_lines w !! Z.to_nat (j - 1)) as [linej|] eqn:Hlinej.
    + destruct (Re.search linej) as [idj|] eqn:Hsearch.
      * rewrite (show_description_tagged _ w1 _ linej idj) by done.
        rewrite (show_description_tagged _ w _ linej idj) by done.
        rewrite Hdir. unfold w1. cbn [descriptions].
        rewrite lookup_insert_ne.
        -- by destruct (entries !! (idj ++ lit ".txt")) as [[]|].
        -- unfold name. intros Heq%app_inv_tail.
           apply (Hother linej eq_refl). by rewrite Heq.
      * destruct (commands_untagged description_dir None None (λ _ w, w)
                    w1 j linej) as [-> _]; try done.
        by destruct (commands_untagged description_dir None None (λ _ w, w)
                       w j linej) as [-> _].
    + destruct (commands_not_found TextOutput description_dir None None
                  (λ _ w, w)
                  w1 0 j []) as (_ & -> & _).
      { apply get_task_None. right. apply lookup_ge_None in Hsame. lia. }
      destruct (commands_not_found TextOutput description_dir None None
                  (λ _ w, w)
                  w 0 j []) as (_ & -> & _); [|done].
      apply get_task_None. right. apply lookup_ge_None in Hlinej. lia.
  - destruct (commands_not_found TextOutput description_dir None None
                  (λ _ w, w)
                w1 0 j []) as (_ & -> & _).
    { apply get_task_None. left. lia. }
    destruct (commands_not_found TextOutput description_dir None None
                  (λ _ w, w)
                w 0 j []) as (_ & -> & _); [|done].
    apply get_task_None. left. lia.
Qed.

Lemma add_description_other_tasks_witness :
  let w := sample_world (ln "buy milk" ++ ln "call mum des:0a1b2c3d")
             (Directory {[ lit "0a1b2c3d.txt" := RegularFile (lit "at six") ]})
             [] in
  ∃ w1,
    add_description TextOutput sample_dir 0 1 (lit "two litres") w
    = (Returned (), w1)
    ∧ (show_description sample_dir 2 w1).1 = (show_description sample_dir 2 w).1
    ∧ stdout (show_description sample_dir 2 w1).2
      = stdout (show_description sample_dir 2 w).2.
Proof.
  eexists. split; [by vm_compute|].
  apply (add_description_other_tasks sample_dir _ _ 0 1 2 (lit "two litres")).
  - by vm_compute.
  - apply CR_free_CR_before_LF. by apply (bool_decide_unpack _); vm_compute.
  - lia.
  - intros line Hline. vm_compute in Hline. injection Hline as <-.
    by vm_compute.
Defined.


